(** * Course catalogue back end: caching and ingestion core

    A shallow embedding of the Express/Mongoose/Redis back end
    ([backend/utils/redis.js], [backend/models/Course.js],
    [backend/middleware/validation.js], the courses router, the
    recommendations router and the authentication middleware) together
    with the properties that its specification states about it and further
    properties of the same code.

    Conventions of the embedding.
    - A JavaScript string is a Rocq [string] (a sequence of bytes); an
      optional value ([undefined]) is [None].
    - A JavaScript number is a [number]: [NaN], an infinity, or an exact
      rational.  IEEE-754 rounding is not modelled: a numeral denotes the
      rational it spells.
    - A plain object used as a record of optional fields (a CSV row, a
      Mongoose document) is a [gmap string _]; a key bound to [undefined]
      is an absent key.
    - The MongoDB collection is the list of its documents in natural
      (insertion) order; the Redis key space is a [gmap] from keys to
      entries with their expiry time. *)

From Stdlib Require Import ZArith QArith Qround List String Ascii Bool Lia Permutation Sorted.
From stdpp Require Import gmap strings list fin_maps pretty.
From stdpp Require sorting.

Local Open Scope string_scope.
Local Open Scope list_scope.
Local Open Scope Z_scope.

(** ** JavaScript primitives used by the routes *)

Module Js.

Inductive number : Type :=
| NaN
| Inf (negative : bool)
| Num (q : Q).

#[global] Instance Q_eq_dec : EqDecision Q.
Proof. solve_decision. Defined.

#[global] Instance number_eq_dec : EqDecision number.
Proof. solve_decision. Defined.

Definition ofZ (z : Z) : number := Num (inject_Z z).

(** [ToBoolean] on numbers: [NaN], [+0] and [-0] are falsy. *)
Definition numTruthy (n : number) : bool :=
  match n with
  | NaN => false
  | Inf _ => true
  | Num q => negb (Qnum q =? 0)
  end.

(** [ToBoolean] on an optional string: [undefined] and the empty string are
    falsy. *)
Definition strTruthy (s : option string) : bool :=
  match s with
  | Some (String _ _) => true
  | _ => false
  end.

(** [a || b] on optional strings. *)
Definition or (a b : option string) : option string :=
  if strTruthy a then a else b.

(** [a || b] on numbers. *)
Definition numOr (a b : number) : number :=
  if numTruthy a then a else b.

(** White space and line terminators of the ASCII range.  [trim],
    [parseInt] and [parseFloat] also skip U+00A0, U+FEFF and the other
    Unicode spaces: texts that hold them are outside the embedding. *)
Definition isWhite (c : ascii) : bool :=
  let n := nat_of_ascii c in
  ((9 <=? n)%nat && (n <=? 13)%nat) || (n =? 32)%nat.

Fixpoint trimStart (s : string) : string :=
  match s with
  | String c r => if isWhite c then trimStart r else s
  | EmptyString => EmptyString
  end.

Fixpoint revString (s acc : string) : string :=
  match s with
  | EmptyString => acc
  | String c r => revString r (String c acc)
  end.

Definition trimEnd (s : string) : string :=
  revString (trimStart (revString s "")) "".

(** [String.prototype.trim]. *)
Definition trim (s : string) : string := trimEnd (trimStart s).

(** [s.split(sep)] for a one-character separator. *)
Fixpoint split (sep : ascii) (s : string) : list string :=
  match s with
  | EmptyString => [EmptyString]
  | String c r =>
      if Ascii.eqb c sep then EmptyString :: split sep r
      else match split sep r with
           | h :: t => String c h :: t
           | [] => [String c EmptyString]
           end
  end.


(** [l.join(sep)]. *)
Fixpoint join (sep : string) (l : list string) : string :=
  match l with
  | [] => EmptyString
  | [x] => x
  | x :: r => x +:+ sep +:+ join sep r
  end.

Definition digitVal (radix : Z) (c : ascii) : option Z :=
  let n := Z.of_nat (nat_of_ascii c) in
  let v := if (48 <=? n) && (n <=? 57) then Some (n - 48)
           else if (97 <=? n) && (n <=? 122) then Some (n - 87)
           else if (65 <=? n) && (n <=? 90) then Some (n - 55)
           else None in
  match v with
  | Some d => if d <? radix then Some d else None
  | None => None
  end.

(** Longest prefix of digits in [radix]: its value, its length, the rest. *)
Fixpoint readDigits (radix : Z) (s : string) (acc : Z) (len : nat)
  : Z * nat * string :=
  match s with
  | String c r =>
      match digitVal radix c with
      | Some d => readDigits radix r (acc * radix + d) (S len)
      | None => (acc, len, s)
      end
  | EmptyString => (acc, len, s)
  end.

(** An optional sign: [true] for a minus, and the rest of the string. *)
Definition readSign (s : string) : bool * string :=
  match s with
  | String "-" r => (true, r)
  | String "+" r => (false, r)
  | _ => (false, s)
  end.

Definition isHexPrefix (s : string) : option string :=
  match s with
  | String "0" (String "x" r) => Some r
  | String "0" (String "X" r) => Some r
  | _ => None
  end.

(** [parseInt(s)] with no radix argument; [parseInt(undefined)] is [NaN]. *)
Definition parseInt (s : option string) : number :=
  match s with
  | None => NaN
  | Some s =>
      let (neg, s1) := readSign (trimStart s) in
      let '(radix, s2) := match isHexPrefix s1 with
                          | Some r => (16, r)
                          | None => (10, s1)
                          end in
      let '(v, len, _) := readDigits radix s2 0 0%nat in
      match len with
      | O => NaN
      | _ => ofZ (if neg then - v else v)
      end
  end.

(** The rational [m * 10^e]. *)
Definition scale10 (m e : Z) : Q :=
  if 0 <=? e then inject_Z (m * 10 ^ e)
  else Qmake m (Z.to_pos (10 ^ (- e))).

Definition readExponent (s : string) : Z :=
  match s with
  | String c r =>
      if Ascii.eqb c "e" || Ascii.eqb c "E" then
        let (neg, r1) := readSign r in
        let '(v, len, _) := readDigits 10 r1 0 0%nat in
        match len with
        | O => 0
        | _ => if neg then - v else v
        end
      else 0
  | EmptyString => 0
  end.

(** [parseFloat(s)]: the longest prefix that is a decimal literal. *)
Definition parseFloat (s : option string) : number :=
  match s with
  | None => NaN
  | Some s =>
      let (neg, s1) := readSign (trimStart s) in
      if String.prefix "Infinity" s1 then Inf neg
      else
        let '(ip, ni, s2) := readDigits 10 s1 0 0%nat in
        let '(fp, nf, s3) := match s2 with
                             | String "." r => readDigits 10 r 0 0%nat
                             | _ => (0, 0%nat, s2)
                             end in
        match (ni + nf)%nat with
        | O => NaN
        | _ =>
            let m := ip * 10 ^ Z.of_nat nf + fp in
            let e := readExponent s3 - Z.of_nat nf in
            Num (scale10 (if neg then - m else m) e)
        end
  end.

(** Decimal rendering of an integer, as a template literal does. *)
Definition showZ (z : Z) : string := pretty z.

Definition lowerAscii (c : ascii) : ascii :=
  let n := nat_of_ascii c in
  if (65 <=? n)%nat && (n <=? 90)%nat then ascii_of_nat (n + 32) else c.

Fixpoint toLowerCase (s : string) : string :=
  match s with
  | EmptyString => EmptyString
  | String c r => String (lowerAscii c) (toLowerCase r)
  end.

(** [hay.includes(needle)]. *)
Fixpoint includes (needle hay : string) : bool :=
  String.prefix needle hay ||
  match hay with
  | EmptyString => false
  | String _ r => includes needle r
  end.

(** Comparison of numbers by [<=]; any comparison with [NaN] is false. *)
Definition numLe (a b : number) : bool :=
  match a, b with
  | NaN, _ | _, NaN => false
  | Inf true, _ => true
  | _, Inf false => true
  | Inf false, _ => false
  | _, Inf true => false
  | Num x, Num y => Qle_bool x y
  end.

Definition numOpp (a : number) : number :=
  match a with
  | NaN => NaN
  | Inf s => Inf (negb s)
  | Num q => Num (- q)
  end.

Definition numAdd (a b : number) : number :=
  match a, b with
  | NaN, _ | _, NaN => NaN
  | Inf s, Inf t => if Bool.eqb s t then Inf s else NaN
  | Inf s, Num _ | Num _, Inf s => Inf s
  | Num x, Num y => Num (x + y)
  end.

Definition numSub (a b : number) : number := numAdd a (numOpp b).

Definition isNegative (q : Q) : bool := Qnum q <? 0.
Definition isZero (q : Q) : bool := Qnum q =? 0.

Definition numMul (a b : number) : number :=
  match a, b with
  | NaN, _ | _, NaN => NaN
  | Inf s, Inf t => Inf (xorb s t)
  | Inf s, Num q | Num q, Inf s =>
      if isZero q then NaN else Inf (xorb s (isNegative q))
  | Num x, Num y => Num (x * y)
  end.

Definition numDiv (a b : number) : number :=
  match a, b with
  | NaN, _ | _, NaN => NaN
  | Inf _, Inf _ => NaN
  | Inf s, Num q => Inf (xorb s (isNegative q))
  | Num _, Inf _ => Num 0
  | Num x, Num y =>
      if isZero y then (if isZero x then NaN else Inf (isNegative x))
      else Num (x / y)
  end.

(** [Array.prototype.sort], which is stable: [before a b] says that [a]
    may stand before [b] (the comparator is not positive on them). *)
Fixpoint insertBy {A : Type} (before : A -> A -> bool) (x : A) (l : list A)
  : list A :=
  match l with
  | [] => [x]
  | y :: r => if before x y then x :: y :: r else y :: insertBy before x r
  end.

Definition sortBy {A : Type} (before : A -> A -> bool) (l : list A) : list A :=
  fold_right (insertBy before) [] l.

(** [Math.ceil]. *)
Definition ceil (a : number) : number :=
  match a with
  | Num q => ofZ (Qceiling q)
  | _ => a
  end.

End Js.

(** ** The course model ([backend/models/Course.js]) *)

Module Model.

(** Values held by the paths of the course schema. *)
Inductive Value : Type :=
| VStr (s : string)
| VNum (n : Js.number)
| VBool (b : bool)
| VList (l : list string).

#[global] Instance Value_eq_dec : EqDecision Value.
Proof. solve_decision. Defined.

(** A document (and the plain object handed to [new Course(..)] or to
    [findOneAndUpdate]): its defined paths.  The identifier [_id], the
    version key and the two timestamps that Mongoose manages are left out. *)
Abbreviation Doc := (gmap string Value).

Inductive SchemaType : Type := TString | TNumber | TBoolean | TStringArray.

Record PathSpec : Type := mkPath {
  pType : SchemaType;
  pRequired : bool;
  pEnum : option (list string);
  pDefault : option Value
}.

Definition str : PathSpec := mkPath TString false None None.
Definition strReq : PathSpec := mkPath TString true None None.
Definition strReqDefault (d : string) : PathSpec :=
  mkPath TString true None (Some (VStr d)).
Definition strEnumReq (vs : list string) : PathSpec :=
  mkPath TString true (Some vs) None.
Definition num : PathSpec := mkPath TNumber false None None.
Definition numReq : PathSpec := mkPath TNumber true None None.
Definition boolDefaultFalse : PathSpec :=
  mkPath TBoolean false None (Some (VBool false)).
Definition strArray : PathSpec := mkPath TStringArray false None (Some (VList [])).

Definition courseLevels : list string :=
  ["Undergraduate"; "Postgraduate"; "Doctorate"; "Diploma"; "Certificate"].
Definition attendanceTypes : list string :=
  ["Full-time"; "Part-time"; "Online"].

(** [courseSchema], path by path. *)
Definition courseSchema : list (string * PathSpec) :=
  [ ("uniqueId", strReq);
    ("courseName", strReq);
    ("courseCode", strReq);
    ("universityCode", strReq);
    ("universityName", strReq);
    ("departmentSchool", strReq);
    ("disciplineMajor", strReq);
    ("specialization", str);
    ("courseLevel", strEnumReq courseLevels);
    ("overviewDescription", strReq);
    ("summary", strReq);
    ("prerequisites", strArray);
    ("learningOutcomes", strArray);
    ("teachingMethodology", strReq);
    ("assessmentMethods", strArray);
    ("credits", numReq);
    ("durationMonths", numReq);
    ("languageOfInstruction", strReq);
    ("syllabusUrl", str);
    ("keywords", strArray);
    ("professorName", str);
    ("professorEmail", str);
    ("officeLocation", str);
    ("openForIntake", str);
    ("admissionOpenYears", strReq);
    ("attendanceType", strEnumReq attendanceTypes);
    ("firstYearTuitionFee", numReq);
    ("totalTuitionFee", numReq);
    ("tuitionFeeCurrency", strReqDefault "USD");
    ("applicationFeeAmount", numReq);
    ("applicationFeeCurrency", strReqDefault "USD");
    ("applicationFeeWaived", boolDefaultFalse);
    ("requiredApplicationMaterials", strReq);
    ("twelfthGradeRequirement", str);
    ("undergraduateDegreeRequirement", str);
    ("minimumIELTSScore", num);
    ("minimumTOEFLScore", num);
    ("minimumPTEScore", num);
    ("minimumDuolingoScore", num);
    ("minimumCambridgeEnglishScore", str);
    ("otherEnglishTestsAccepted", str);
    ("greRequired", boolDefaultFalse);
    ("greScore", str);
    ("gmatRequired", boolDefaultFalse);
    ("gmatScore", str);
    ("satRequired", boolDefaultFalse);
    ("satScore", str);
    ("actRequired", boolDefaultFalse);
    ("actScore", str);
    ("waiverOptions", str);
    ("partnerCourse", boolDefaultFalse);
    ("ftRanking2024", num);
    ("acceptanceRate", num);
    ("domesticApplicationDeadline", strReq);
    ("internationalApplicationDeadline", strReq);
    ("courseUrl", strReq) ].

Inductive Problem : Type := Required | CastFailed | NotInEnum.

Definition inList (s : string) (l : list string) : bool :=
  existsb (String.eqb s) l.

(** The validators of one path, run on the value found there: the
    [required] validator first (it rejects [undefined] and, for strings,
    the empty string), then the cast to the declared type (a number path
    refuses [NaN]), then [enum]. *)
Definition checkPath (p : PathSpec) (v : option Value) : option Problem :=
  match v with
  | None => if pRequired p then Some Required else None
  | Some val =>
      match pType p, val with
      | TString, VStr s =>
          if pRequired p && negb (Js.strTruthy (Some s)) then Some Required
          else match pEnum p with
               | Some vs => if inList s vs then None else Some NotInEnum
               | None => None
               end
      | TNumber, VNum Js.NaN => Some CastFailed
      | TNumber, VNum _ => None
      | TBoolean, VBool _ => None
      | TStringArray, VList _ => None
      | _, _ => Some CastFailed
      end
  end.

(** Schema defaults, filled in by [new Course(..)] where a path is absent. *)
Definition applyDefaults (d : Doc) : Doc :=
  fold_right (fun '(k, p) acc =>
                match acc !! k, pDefault p with
                | None, Some v => <[k := v]> acc
                | _, _ => acc
                end) d courseSchema.

(** Document validation, as [save()] runs it: every path of the schema. *)
Definition validateDoc (d : Doc) : list (string * Problem) :=
  omap (fun '(k, p) => match checkPath p (d !! k) with
                       | Some e => Some (k, e)
                       | None => None
                       end) courseSchema.

(** Update validation, as [runValidators: true] runs it: only the paths
    that the update sets. *)
Definition validateUpdate (u : Doc) : list (string * Problem) :=
  omap (fun '(k, p) => match u !! k with
                       | Some v => match checkPath p (Some v) with
                                   | Some e => Some (k, e)
                                   | None => None
                                   end
                       | None => None
                       end) courseSchema.

Definition problemText (e : Problem) : string :=
  match e with
  | Required => "is required"
  | CastFailed => "cast failed"
  | NotInEnum => "is not a valid enum value"
  end.

(** The [message] of the error that Mongoose throws (its wording is
    abbreviated to the failing paths and the kind of failure). *)
Definition validationMessage (errs : list (string * Problem)) : string :=
  "Validation failed: " +:+
  Js.join ", " (map (fun '(k, e) => k +:+ " " +:+ problemText e) errs).

(** The collection, in natural order. *)
Abbreviation Collection := (list Doc).

Definition hasUniqueId (u : string) (d : Doc) : bool :=
  match d !! "uniqueId" with
  | Some (VStr s) => String.eqb s u
  | _ => false
  end.

(** [Course.findOne({ uniqueId: u })]. *)
Definition findOne (u : string) (c : Collection) : option Doc :=
  find (hasUniqueId u) c.

(** The unique index on [uniqueId] refuses a second document under a
    stored identifier. *)
Definition duplicateKey (d : Doc) (c : Collection) : bool :=
  match d !! "uniqueId" with
  | Some (VStr u) => match findOne u c with
                     | Some _ => true
                     | None => false
                     end
  | _ => false
  end.

(** [new Course(data).save()]: the stored collection, or the message of the
    error (of the validation, or of the unique index). *)
Definition save (data : Doc) (c : Collection) : Collection + string :=
  let d := applyDefaults data in
  match validateDoc d with
  | [] => if duplicateKey d c
          then inr "E11000 duplicate key error"
          else inl (c ++ [d])
  | errs => inr (validationMessage errs)
  end.

(** The first document that satisfies [f], replaced by its image. *)
Fixpoint updateFirst (f : Doc -> bool) (g : Doc -> Doc) (c : Collection)
  : Collection :=
  match c with
  | [] => []
  | d :: r => if f d then g d :: r else d :: updateFirst f g r
  end.

(** [Course.findOneAndUpdate({ uniqueId: u }, data, { new, runValidators })]:
    the paths of [data] are set on the first matching document. *)
Definition findOneAndUpdate (u : string) (data : Doc) (c : Collection)
  : Collection + string :=
  match validateUpdate data with
  | [] => inl (updateFirst (hasUniqueId u) (fun d => data ∪ d) c)
  | errs => inr (validationMessage errs)
  end.

End Model.

(** ** JSON values

    What [JSON.stringify] writes and [JSON.parse] reads back: the tree that
    a JSON text denotes, with the members of an object in their order.
    Response bodies ([res.json]) and cached values are such trees, so two
    bodies are the same bytes exactly when they are the same tree. *)

Module Json.

#[local] Unset Elimination Schemes.
Inductive t : Type :=
| JNull
| JBool (b : bool)
| JNum (q : Q)
| JStr (s : string)
| JArr (l : list t)
| JObj (members : list (string * t)).
#[local] Set Elimination Schemes.

(** A number as [JSON.stringify] writes it: [NaN] and the infinities
    become [null]. *)
Definition ofNumber (n : Js.number) : t :=
  match n with
  | Js.Num q => JNum q
  | _ => JNull
  end.

(** [ToBoolean] of a parsed value. *)
Definition truthy (j : t) : bool :=
  match j with
  | JNull => false
  | JBool b => b
  | JNum q => negb (Js.isZero q)
  | JStr s => Js.strTruthy (Some s)
  | JArr _ | JObj _ => true
  end.

(** Assignment of one member: in place when the key is there, at the end
    otherwise. *)
Fixpoint setMember (k : string) (v : t) (ms : list (string * t))
  : list (string * t) :=
  match ms with
  | [] => [(k, v)]
  | (k', v') :: r =>
      if String.eqb k' k then (k, v) :: r else (k', v') :: setMember k v r
  end.

Definition getMember (k : string) (j : t) : option t :=
  match j with
  | JObj ms => snd <$> find (fun m => String.eqb (fst m) k) ms
  | _ => None
  end.

Fixpoint indexed {A : Type} (i : nat) (l : list A) : list (string * A) :=
  match l with
  | [] => []
  | x :: r => (pretty i, x) :: indexed (S i) r
  end.

Fixpoint chars (s : string) : list t :=
  match s with
  | EmptyString => []
  | String c r => JStr (String c EmptyString) :: chars r
  end.

(** The own enumerable properties that an object spread copies. *)
Definition spread (j : t) : list (string * t) :=
  match j with
  | JObj ms => ms
  | JArr l => indexed 0 l
  | JStr s => indexed 0 (chars s)
  | _ => []
  end.

End Json.

(** ** The cache client ([backend/utils/redis.js]) *)

Module Redis.

Import Json.

(** The client: the connection flag and, for what the server holds, each
    key with its value and the time (in seconds) at which it expires. *)
Record RedisClient : Type := mkClient {
  isConnected : bool;
  entries : gmap string (Json.t * Z)
}.

(** [set(key, value, expirySeconds)] at time [now], for a [value] that is
    an object or an array and a positive [expirySeconds] (as every caller
    passes): the server keeps what [JSON.stringify] writes.  Another value
    is kept raw and read back through [JSON.parse], and [SETEX] refuses an
    expiry that is not positive: these cases are outside the embedding.
    The result is the boolean that the method returns. *)
Definition set (now : Z) (key : string) (value : Json.t) (expirySeconds : Z)
  (c : RedisClient) : bool * RedisClient :=
  if isConnected c
  then (true, mkClient true (<[key := (value, now + expirySeconds)]> (entries c)))
  else (false, c).

(** [get(key)] at time [now]: what [JSON.parse] reads back from a live
    entry; [None] is the [null] of the method. *)
Definition get (now : Z) (key : string) (c : RedisClient) : option Json.t :=
  if isConnected c
  then match entries c !! key with
       | Some (v, expiry) => if now <? expiry then Some v else None
       | None => None
       end
  else None.

Definition del (key : string) (c : RedisClient) : bool * RedisClient :=
  if isConnected c
  then (true, mkClient true (delete key (entries c)))
  else (false, c).

Definition flush (c : RedisClient) : bool * RedisClient :=
  if isConnected c then (true, mkClient true ∅) else (false, c).

Definition getCachedCourses (now : Z) (cacheKey : string) (c : RedisClient)
  : option Json.t :=
  get now ("courses:" +:+ cacheKey) c.

Definition setCachedCourses (now : Z) (cacheKey : string) (courses : Json.t)
  (c : RedisClient) : bool * RedisClient :=
  set now ("courses:" +:+ cacheKey) courses 1800 c.

(** [invalidateCourseCache()]: every key that matches [courses:*] goes. *)
Definition invalidateCourseCache (c : RedisClient) : bool * RedisClient :=
  if isConnected c
  then (true,
        mkClient true
          (filter (fun kv => negb (String.prefix "courses:" (fst kv)))
                  (entries c)))
  else (false, c).

Definition getCachedRecommendations (now : Z) (cacheKey : string)
  (c : RedisClient) : option Json.t :=
  get now ("recommendations:" +:+ cacheKey) c.

Definition setCachedRecommendations (now : Z) (cacheKey : string)
  (recommendations : Json.t) (c : RedisClient) : bool * RedisClient :=
  set now ("recommendations:" +:+ cacheKey) recommendations 3600 c.

End Redis.

(** ** The courses router: CSV ingestion ([POST /api/courses/upload]) *)

Module Upload.

Import Model.

(** A row as [csv-parser] emits it: the cell under each header. *)
Abbreviation Row := (gmap string string).

(** The object literal of the route, key by key; a key whose value is
    [undefined] is not among the paths of the result. *)
Definition object (fields : list (string * option Value)) : Doc :=
  fold_right (fun '(k, v) acc =>
                match v with
                | Some x => <[k := x]> acc
                | None => acc
                end) ∅ fields.

(** The value that the literal gives to a key. *)
Fixpoint field (k : string) (fields : list (string * option Value))
  : option Value :=
  match fields with
  | [] => None
  | (k', v) :: r => if String.eqb k' k then v else field k r
  end.

(** [a || b] where [b] is a string literal. *)
Definition orDefault (a : option string) (b : string) : option string :=
  Js.or a (Some b).

Definition text (v : option string) : option Value := VStr <$> v.

(** [cell ? cell.split(sep).map(x => x.trim()) : []]. *)
Definition splitList (sep : ascii) (cell : option string) : option Value :=
  match cell with
  | Some s => if Js.strTruthy cell
              then Some (VList (map Js.trim (Js.split sep s)))
              else Some (VList [])
  | None => Some (VList [])
  end.


(** [cell === 'true']. *)
Definition isTrue (cell : option string) : option Value :=
  match cell with
  | Some s => Some (VBool (String.eqb s "true"))
  | None => Some (VBool false)
  end.

(** [cell ? parse(cell) : undefined]. *)
Definition optionalNumber (parse : option string -> Js.number)
  (cell : option string) : option Value :=
  if Js.strTruthy cell then Some (VNum (parse cell)) else None.

Definition numeric (n : Js.number) : option Value := Some (VNum n).

(** The identifier of a row: [row.uniqueId || row.course_id ||
    `course_${Date.now()}_${processedCount}`]. *)
Definition generatedId (now : Z) (processedCount : nat) : string :=
  "course_" +:+ Js.showZ now +:+ "_" +:+ Js.showZ (Z.of_nat processedCount).

(** [row.uniqueId || row.course_id], when that is truthy. *)
Definition ownId (row : Row) : option string :=
  let v := Js.or (row !! "uniqueId") (row !! "course_id") in
  if Js.strTruthy v then v else None.

Definition rowUniqueId (row : Row) (now : Z) (processedCount : nat) : string :=
  match ownId row with
  | Some u => u
  | None => generatedId now processedCount
  end.

(** The transformation of a row into the data of a course. *)
Definition courseFields (row : Row) (now : Z) (processedCount : nat)
  : list (string * option Value) :=
  let cell (k : string) : option string := row !! k in
  [ ("uniqueId", Some (VStr (rowUniqueId row now processedCount)));
    ("courseName", text (Js.or (Js.or (cell "courseName") (cell "title")) (cell "name")));
    ("courseCode", text (Js.or (cell "courseCode") (cell "code")));
    ("universityCode", text (Js.or (cell "universityCode") (cell "university_code")));
    ("universityName", text (Js.or (cell "universityName") (cell "university_name")));
    ("departmentSchool",
      text (Js.or (Js.or (cell "departmentSchool") (cell "department")) (cell "school")));
    ("disciplineMajor",
      text (Js.or (Js.or (cell "disciplineMajor") (cell "discipline")) (cell "major")));
    ("specialization", text (cell "specialization"));
    ("courseLevel",
      text (orDefault (Js.or (cell "courseLevel") (cell "level")) "Undergraduate"));
    ("overviewDescription",
      text (Js.or (cell "overviewDescription") (cell "description")));
    ("summary",
      text (Js.or (Js.or (cell "summary") (cell "overviewDescription")) (cell "description")));
    ("prerequisites", splitList ";" (cell "prerequisites"));
    ("learningOutcomes", splitList ";" (cell "learningOutcomes"));
    ("teachingMethodology",
      text (orDefault (Js.or (cell "teachingMethodology") (cell "methodology")) "Not specified"));
    ("assessmentMethods", splitList ";" (cell "assessmentMethods"));
    ("credits", numeric (Js.numOr (Js.parseInt (cell "credits")) (Js.ofZ 0)));
    ("durationMonths",
      numeric (Js.numOr (Js.numOr (Js.parseInt (cell "durationMonths"))
                                 (Js.parseInt (cell "duration")))
                       (Js.ofZ 12)));
    ("languageOfInstruction",
      text (orDefault (Js.or (cell "languageOfInstruction") (cell "language")) "English"));
    ("syllabusUrl", text (Js.or (cell "syllabusUrl") (cell "syllabus_url")));
    ("keywords", splitList "," (cell "keywords"));
    ("professorName", text (Js.or (cell "professorName") (cell "instructor")));
    ("professorEmail", text (Js.or (cell "professorEmail") (cell "instructor_email")));
    ("officeLocation", text (cell "officeLocation"));
    ("openForIntake", text (cell "openForIntake"));
    ("admissionOpenYears", text (orDefault (cell "admissionOpenYears") "2024"));
    ("attendanceType",
      text (orDefault (Js.or (cell "attendanceType") (cell "attendance")) "Full-time"));
    ("firstYearTuitionFee",
      numeric (Js.numOr (Js.numOr (Js.parseFloat (cell "firstYearTuitionFee"))
                                 (Js.parseFloat (cell "tuition")))
                       (Js.ofZ 0)));
    ("totalTuitionFee",
      numeric (Js.numOr (Js.numOr (Js.parseFloat (cell "totalTuitionFee"))
                                 (Js.parseFloat (cell "tuition")))
                       (Js.ofZ 0)));
    ("tuitionFeeCurrency",
      text (orDefault (Js.or (cell "tuitionFeeCurrency") (cell "currency")) "USD"));
    ("applicationFeeAmount",
      numeric (Js.numOr (Js.parseFloat (cell "applicationFeeAmount")) (Js.ofZ 0)));
    ("applicationFeeCurrency", text (orDefault (cell "applicationFeeCurrency") "USD"));
    ("applicationFeeWaived", isTrue (cell "applicationFeeWaived"));
    ("requiredApplicationMaterials",
      text (orDefault (cell "requiredApplicationMaterials") "Standard application materials"));
    ("twelfthGradeRequirement", text (cell "twelfthGradeRequirement"));
    ("undergraduateDegreeRequirement", text (cell "undergraduateDegreeRequirement"));
    ("minimumIELTSScore", optionalNumber Js.parseFloat (cell "minimumIELTSScore"));
    ("minimumTOEFLScore", optionalNumber Js.parseFloat (cell "minimumTOEFLScore"));
    ("minimumPTEScore", optionalNumber Js.parseFloat (cell "minimumPTEScore"));
    ("minimumDuolingoScore", optionalNumber Js.parseFloat (cell "minimumDuolingoScore"));
    ("minimumCambridgeEnglishScore", text (cell "minimumCambridgeEnglishScore"));
    ("otherEnglishTestsAccepted", text (cell "otherEnglishTestsAccepted"));
    ("greRequired", isTrue (cell "greRequired"));
    ("greScore", text (cell "greScore"));
    ("gmatRequired", isTrue (cell "gmatRequired"));
    ("gmatScore", text (cell "gmatScore"));
    ("satRequired", isTrue (cell "satRequired"));
    ("satScore", text (cell "satScore"));
    ("actRequired", isTrue (cell "actRequired"));
    ("actScore", text (cell "actScore"));
    ("waiverOptions", text (cell "waiverOptions"));
    ("partnerCourse", isTrue (cell "partnerCourse"));
    ("ftRanking2024", optionalNumber Js.parseInt (cell "ftRanking2024"));
    ("acceptanceRate", optionalNumber Js.parseFloat (cell "acceptanceRate"));
    ("domesticApplicationDeadline",
      text (orDefault (cell "domesticApplicationDeadline") "2024-12-31"));
    ("internationalApplicationDeadline",
      text (orDefault (cell "internationalApplicationDeadline") "2024-12-31"));
    ("courseUrl", text (orDefault (Js.or (cell "courseUrl") (cell "url")) "#")) ].

Definition courseData (row : Row) (now : Z) (processedCount : nat) : Doc :=
  object (courseFields row now processedCount).

(** The two branches of the upsert, and the failure of either. *)
Inductive Outcome : Type :=
| Inserted (c : Collection)
| Updated (c : Collection)
| Failed (message : string).

(** [findOne] on the identifier, then [findOneAndUpdate] or [save]. *)
Definition upsert (data : Doc) (u : string) (c : Collection) : Outcome :=
  match findOne u c with
  | Some _ =>
      match findOneAndUpdate u data c with
      | inl c' => Updated c'
      | inr msg => Failed msg
      end
  | None =>
      match save data c with
      | inl c' => Inserted c'
      | inr msg => Failed msg
      end
  end.

(** An entry of the [errors] array. *)
Record ErrorEntry : Type := mkError {
  row : nat;
  error : string;
  data : Row
}.

(** The variables of the row loop, with the collection it writes to. *)
Record Loop : Type := mkLoop {
  collection : Collection;
  processedCount : nat;
  successCount : nat;
  errors : list ErrorEntry
}.

(** The data and the identifier of the row at (0-based) position [i] of
    the file: [processedCount] is [i + 1] when they are made, and
    [clock n] is what [Date.now()] reads while row [n] is processed. *)
Definition dataAt (clock : nat -> Z) (i : nat) (r : Row) : Doc :=
  courseData r (clock (S i)) (S i).

Definition idAt (clock : nat -> Z) (i : nat) (r : Row) : string :=
  rowUniqueId r (clock (S i)) (S i).

(** One iteration of [for (const row of results)]: the increment of
    [processedCount], the body of the inner [try], and its [catch]. *)
Definition processRow (clock : nat -> Z) (st : Loop) (r : Row) : Loop :=
  let i := processedCount st in
  match upsert (dataAt clock i r) (idAt clock i r) (collection st) with
  | Inserted c | Updated c =>
      mkLoop c (S i) (S (successCount st)) (errors st)
  | Failed msg =>
      mkLoop (collection st) (S i) (successCount st)
             (errors st ++ [mkError (S i) msg r])
  end.

Definition processRows (clock : nat -> Z) (rows : list Row) (c : Collection)
  : Loop :=
  fold_left (processRow clock) rows (mkLoop c 0 0 []).

(** The collection that an upsert leaves. *)
Definition collectionAfter (o : Outcome) (c : Collection) : Collection :=
  match o with
  | Inserted c' | Updated c' => c'
  | Failed _ => c
  end.

Definition isInsert (o : Outcome) : bool :=
  match o with
  | Inserted _ => true
  | _ => false
  end.

(** The number of rows that the loop inserts (takes the [save] branch
    with success) from the state [st] on. *)
Fixpoint inserts (clock : nat -> Z) (st : Loop) (rows : list Row) : nat :=
  match rows with
  | [] => 0%nat
  | r :: rest =>
      ((if isInsert (upsert (dataAt clock (processedCount st) r)
                            (idAt clock (processedCount st) r) (collection st))
        then 1 else 0)
       + inserts clock (processRow clock st r) rest)%nat
  end.



(** The upload directory: the files in it, and those that cannot be
    removed (no permission on the directory, file held open). *)
Record FileSys : Type := mkFs {
  files : gset string;
  undeletable : gset string
}.

(** [fs.unlinkSync(path)]: the directory without the file, or the message
    of the error thrown. *)
Definition unlinkSync (path : string) (fs : FileSys) : FileSys + string :=
  if decide (path ∈ files fs) then
    if decide (path ∈ undeletable fs)
    then inr "EPERM: operation not permitted, unlink"
    else inl (mkFs (files fs ∖ {[path]}) (undeletable fs))
  else inr "ENOENT: no such file or directory, unlink".

(** What the handlers work on. *)
Record World : Type := mkWorld {
  db : Collection;
  cache : Redis.RedisClient;
  disk : FileSys
}.

(** [req.file], with the rows that the CSV parser reads from it. *)
Record UploadedFile : Type := mkFile {
  path : string;
  results : list Row
}.

Inductive Response : Type :=
| BadRequest (error : string)
| Completed (totalProcessed successful errorCount : nat)
            (firstErrors : list ErrorEntry)
| ServerError (error details : string).

(** The handler, once [auth] and [upload.single('csvFile')] have let the
    request through. *)
Definition uploadRoute (clock : nat -> Z) (file : option UploadedFile)
  (w : World) : Response * World :=
  match file with
  | None => (BadRequest "No CSV file uploaded", w)
  | Some f =>
      let st := processRows clock (results f) (db w) in
      let cache' := snd (Redis.invalidateCourseCache (cache w)) in
      match unlinkSync (path f) (disk w) with
      | inl disk' =>
          (Completed (processedCount st) (successCount st)
                     (length (errors st)) (take 10 (errors st)),
           mkWorld (collection st) cache' disk')
      | inr msg =>
          (ServerError "Error processing CSV file" msg,
           mkWorld (collection st) cache' (disk w))
      end
  end.

End Upload.


(** ** The courses router: listing ([GET /api/courses]) *)

Module Listing.

Import Model.

(** [req.query]: the parameters that the handler reads, each a string when
    it is given. *)
Record Query : Type := mkQuery {
  query : option string;
  universityCode : option string;
  courseLevel : option string;
  disciplineMajor : option string;
  attendanceType : option string;
  minTuition : option string;
  maxTuition : option string;
  limit : option string;
  page : option string
}.

(** The destructuring defaults [limit = 50] and [page = 1], as the strings
    that [parseInt] converts them to. *)
Definition limitArg (q : Query) : option string :=
  Some (default "50" (limit q)).
Definition pageArg (q : Query) : option string :=
  Some (default "1" (page q)).

Definition hexDigit (n : nat) : ascii :=
  ascii_of_nat (if (n <? 10)%nat then 48 + n else 87 + n).

(** The escape of one character inside a JSON string. *)
Definition escapeChar (c : ascii) : string :=
  let n := nat_of_ascii c in
  if (n =? 34)%nat then String "\" (String c "")
  else if (n =? 92)%nat then "\\"
  else if (n =? 8)%nat then "\b"
  else if (n =? 9)%nat then "\t"
  else if (n =? 10)%nat then "\n"
  else if (n =? 12)%nat then "\f"
  else if (n =? 13)%nat then "\r"
  else if (n <? 32)%nat
       then "\u00" +:+ String (hexDigit (n / 16)) (String (hexDigit (n mod 16)) "")
  else String c "".

Fixpoint escape (s : string) : string :=
  match s with
  | EmptyString => EmptyString
  | String c r => escapeChar c +:+ escape r
  end.

Definition quote (s : string) : string :=
  String (ascii_of_nat 34) (escape s +:+ String (ascii_of_nat 34) "").

Definition member (k : string) (v : string) : string := quote k +:+ ":" +:+ v.

(** [JSON.stringify({ query, ..., limit, page })]: the members that are
    defined, in the order of the literal; a defaulted [limit] or [page] is
    a number, a given one a string. *)
Definition cacheKey (q : Query) : string :=
  let str (k : string) (v : option string) := (fun s => member k (quote s)) <$> v in
  "{" +:+
  Js.join ","
    (omap id
       [ str "query" (query q);
         str "universityCode" (universityCode q);
         str "courseLevel" (courseLevel q);
         str "disciplineMajor" (disciplineMajor q);
         str "attendanceType" (attendanceType q);
         str "minTuition" (minTuition q);
         str "maxTuition" (maxTuition q);
         Some (member "limit" (match limit q with Some s => quote s | None => "50" end));
         Some (member "page" (match page q with Some s => quote s | None => "1" end)) ])
  +:+ "}".

(** The filter handed to [Course.find] and [Course.countDocuments]. *)
Record SearchQuery : Type := mkSearch {
  text : option string;
  equalities : list (string * string);
  tuitionGte : option Js.number;
  tuitionLte : option Js.number
}.

Definition searchQuery (q : Query) : SearchQuery :=
  let eq (k : string) (v : option string) :=
    if Js.strTruthy v then (fun s => (k, s)) <$> v else None in
  mkSearch
    (if Js.strTruthy (query q) then query q else None)
    (omap id [ eq "universityCode" (universityCode q);
               eq "courseLevel" (courseLevel q);
               eq "disciplineMajor" (disciplineMajor q);
               eq "attendanceType" (attendanceType q) ])
    ((fun s => Js.parseFloat (Some s)) <$> minTuition q)
    ((fun s => Js.parseFloat (Some s)) <$> maxTuition q).

(** [(parseInt(page) - 1) * parseInt(limit)]. *)
Definition skip (q : Query) : Js.number :=
  Js.numMul (Js.numSub (Js.parseInt (pageArg q)) (Js.ofZ 1))
            (Js.parseInt (limitArg q)).

(** The page size handed to [.limit(..)]. *)
Definition pageSize (q : Query) : Js.number := Js.parseInt (limitArg q).

(** An integer operand of the query engine; [NaN] and the infinities are
    none. *)
Definition asInteger (n : Js.number) : option Z :=
  match n with
  | Js.Num x => Some (Qfloor x)
  | _ => None
  end.

Section Engine.

(** The text index of MongoDB is not part of the repository: whether a
    document matches [$text: { $search }] and with which score. *)
Variable textMatch : string -> Doc -> bool.
Variable textScore : string -> Doc -> Q.

Definition fieldIs (k v : string) (d : Doc) : bool :=
  match d !! k with
  | Some (VStr s) => String.eqb s v
  | _ => false
  end.

Definition tuitionIn (lo hi : option Js.number) (d : Doc) : bool :=
  match lo, hi with
  | None, None => true
  | _, _ =>
      match d !! "firstYearTuitionFee" with
      | Some (VNum n) =>
          from_option (fun b => Js.numLe b n) true lo &&
          from_option (fun b => Js.numLe n b) true hi
      | _ => false
      end
  end.

Definition matches (sq : SearchQuery) (d : Doc) : bool :=
  from_option (fun t => textMatch t d) true (text sq) &&
  forallb (fun '(k, v) => fieldIs k v d) (equalities sq) &&
  tuitionIn (tuitionGte sq) (tuitionLte sq) d.

(** Mongoose casts the bounds to the type of the path and refuses [NaN]. *)
Definition castError (sq : SearchQuery) : bool :=
  match tuitionGte sq, tuitionLte sq with
  | Some Js.NaN, _ | _, Some Js.NaN => true
  | _, _ => false
  end.

Definition nameOf (d : Doc) : option string :=
  match d !! "courseName" with
  | Some (VStr s) => Some s
  | _ => None
  end.

(** The order of [.sort(..)]: by text score, best first, when there is a
    text search; by [courseName] otherwise (a missing name first). *)
Definition before (sq : SearchQuery) (a b : Doc) : bool :=
  match text sq with
  | Some t => Qle_bool (textScore t b) (textScore t a)
  | None =>
      match nameOf a, nameOf b with
      | None, _ => true
      | Some _, None => false
      | Some x, Some y => String.leb x y
      end
  end.

(** [Course.find(sq).sort(..).skip(s).limit(n).lean()]: the documents, or
    the message of the error.  A skip that is not a non-negative integer
    and a limit that is not an integer are refused; a limit of zero is no
    limit and a negative limit counts as its absolute value.  Documents
    with equal sort keys come in the natural order here, where the engine
    promises no order; a skip or a limit that no 64-bit integer holds,
    which the engine refuses, is outside the embedding. *)
Definition find (sq : SearchQuery) (s n : Js.number) (c : Collection)
  : Collection + string :=
  if castError sq then inr "Cast to Number failed"
  else match asInteger s, asInteger n with
       | Some s', Some n' =>
           if s' <? 0 then inr "Skip value must be non-negative"
           else
             let sorted := Js.sortBy (before sq) (filter (fun d => matches sq d = true) c) in
             let rest := drop (Z.to_nat s') sorted in
             inl (if n' =? 0 then rest else take (Z.to_nat (Z.abs n')) rest)
       | _, _ => inr "Failed to parse skip or limit"
       end.

(** [Course.countDocuments(sq)]. *)
Definition countDocuments (sq : SearchQuery) (c : Collection) : nat :=
  length (filter (fun d => matches sq d = true) c).

Definition valueJson (v : Value) : Json.t :=
  match v with
  | VStr s => Json.JStr s
  | VNum n => Json.ofNumber n
  | VBool b => Json.JBool b
  | VList l => Json.JArr (map Json.JStr l)
  end.

(** A lean document in a response body. *)
Definition docJson (d : Doc) : Json.t :=
  Json.JObj (map (fun kv => (fst kv, valueJson (snd kv))) (map_to_list d)).

(** The [result] object of a cache miss. *)
Definition result (q : Query) (courses : Collection) (total : nat) : Json.t :=
  let lim := Js.parseInt (limitArg q) in
  Json.JObj
    [ ("courses", Json.JArr (map docJson courses));
      ("pagination",
        Json.JObj
          [ ("page", Json.ofNumber (Js.parseInt (pageArg q)));
            ("limit", Json.ofNumber lim);
            ("total", Json.JNum (inject_Z (Z.of_nat total)));
            ("pages",
              Json.ofNumber (Js.ceil (Js.numDiv (Js.ofZ (Z.of_nat total)) lim))) ]);
      ("fromCache", Json.JBool false) ].

Inductive ListResponse : Type :=
| Ok (body : Json.t)
| FetchError (error details : string).

(** The handler, at time [now] (seconds). *)
Definition listRoute (now : Z) (q : Query) (w : Upload.World)
  : ListResponse * Upload.World :=
  let key := cacheKey q in
  let cached := Redis.getCachedCourses now key (Upload.cache w) in
  if from_option Json.truthy false cached then
    (Ok (Json.JObj (Json.setMember "fromCache" (Json.JBool true)
                      (from_option Json.spread [] cached))), w)
  else
    let sq := searchQuery q in
    match find sq (skip q) (pageSize q) (Upload.db w) with
    | inr msg => (FetchError "Error fetching courses" msg, w)
    | inl courses =>
        let r := result q courses (countDocuments sq (Upload.db w)) in
        let cache' := snd (Redis.setCachedCourses now key r (Upload.cache w)) in
        (Ok r, Upload.mkWorld (Upload.db w) cache' (Upload.disk w))
    end.

End Engine.

(** The [fromCache] member of a response body. *)
Definition fromCache (r : ListResponse) : option Json.t :=
  match r with
  | Ok body => Json.getMember "fromCache" body
  | FetchError _ _ => None
  end.

(** The number of courses in a response body, and its [pagination.limit]. *)
Definition servedCourses (r : ListResponse) : option nat :=
  match r with
  | Ok body =>
      match Json.getMember "courses" body with
      | Some (Json.JArr l) => Some (length l)
      | _ => None
      end
  | FetchError _ _ => None
  end.

Definition servedLimit (r : ListResponse) : option Json.t :=
  match r with
  | Ok body => Json.getMember "pagination" body ≫= Json.getMember "limit"
  | FetchError _ _ => None
  end.

(** [courseSchemas.search] of the validation middleware, on the page size:
    [Joi.number().integer().min(1).max(100).optional()]. *)
Definition searchSchemaLimit (n : option Js.number) : bool :=
  match n with
  | None => true
  | Some (Js.Num x) =>
      Qeq_bool x (inject_Z (Qfloor x)) && (1 <=? Qfloor x) && (Qfloor x <=? 100)
  | Some _ => false
  end.

End Listing.

(** ** The courses router: statistics ([GET /api/courses/stats/summary]) *)

Module Stats.

Import Model.

Definition tuitions (c : Collection) : list Js.number :=
  omap (fun d : Doc => match d !! "firstYearTuitionFee" with
                       | Some (VNum n) => Some n
                       | _ => None
                       end) c.

Definition least (l : list Js.number) : option Js.number :=
  match l with
  | [] => None
  | x :: r => Some (fold_left (fun m y => if Js.numLe y m then y else m) r x)
  end.

Definition greatest (l : list Js.number) : option Js.number :=
  match l with
  | [] => None
  | x :: r => Some (fold_left (fun m y => if Js.numLe m y then y else m) r x)
  end.

Definition average (l : list Js.number) : option Js.number :=
  match l with
  | [] => None
  | _ => Some (Js.numDiv (fold_left Js.numAdd l (Js.ofZ 0))
                         (Js.ofZ (Z.of_nat (length l))))
  end.

(** The single group of the first pipeline. *)
Record Summary : Type := mkSummary {
  totalCourses : nat;
  avgTuition : option Js.number;
  minTuition : option Js.number;
  maxTuition : option Js.number
}.

Definition summary (c : Collection) : option Summary :=
  match c with
  | [] => None
  | _ => Some (mkSummary (length c) (average (tuitions c))
                         (least (tuitions c)) (greatest (tuitions c)))
  end.

Definition stringAt (k : string) (d : Doc) : option string :=
  match d !! k with
  | Some (VStr s) => Some s
  | _ => None
  end.

(** [$group] with [count: { $sum: 1 }]: one group per key, in the order in
    which the keys first occur. *)
Fixpoint bump (k : option string) (groups : list (option string * nat))
  : list (option string * nat) :=
  match groups with
  | [] => [(k, 1%nat)]
  | (k', n) :: r =>
      if decide (k' = k) then (k', S n) :: r else (k', n) :: bump k r
  end.

Definition countBy (key : Doc -> option string) (c : Collection)
  : list (option string * nat) :=
  fold_left (fun groups d => bump (key d) groups) c [].

(** The university groups keep the name of their first document. *)
Fixpoint bumpNamed (k name : option string)
  (groups : list (option string * option string * nat))
  : list (option string * option string * nat) :=
  match groups with
  | [] => [(k, name, 1%nat)]
  | (k', name', n) :: r =>
      if decide (k' = k) then (k', name', S n) :: r
      else (k', name', n) :: bumpNamed k name r
  end.

Definition topUniversities (c : Collection)
  : list (option string * option string * nat) :=
  take 10
    (Js.sortBy (fun a b => (snd b <=? snd a)%nat)
       (fold_left (fun groups d => bumpNamed (stringAt "universityCode" d)
                                             (stringAt "universityName" d) groups)
                  c [])).

(** The payload that the statistics route computes on a cache miss. *)
Record Statistics : Type := mkStatistics {
  stSummary : option Summary;
  byLevel : list (option string * nat);
  byAttendance : list (option string * nat);
  stTopUniversities : list (option string * option string * nat)
}.

Definition aggregateStatistics (c : Collection) : Statistics :=
  mkStatistics (summary c)
               (countBy (stringAt "courseLevel") c)
               (countBy (stringAt "attendanceType") c)
               (topUniversities c).

End Stats.

(** ** The recommendations router *)

Module Recommendations.

Import Model.

(** [duration], as [recommendationSchemas.getRecommendations] admits it. *)
Inductive Duration : Type := short | medium | long.

(** The preferences of a request, as the JSON body gives them once the
    schema has admitted it: [maxTuition] is a number. *)
Record Preferences : Type := mkPreferences {
  topics : list string;
  skillLevel : option string;
  duration : option Duration;
  maxTuition : option Js.number
}.

Module Mock.

Record Course : Type := mkCourse {
  id : string;
  title : string;
  university : string;
  level : string;
  duration : string;
  tuition : Z;
  matchScore : Z;
  reasoning : string
}.

End Mock.

Definition mockCourses : list Mock.Course :=
  [ Mock.mkCourse "ai_ml_001" "Advanced Machine Learning" "Stanford University"
      "Postgraduate" "12 months" 45000 95
      "Perfect for AI/ML enthusiasts with strong mathematical background";
    Mock.mkCourse "data_science_001" "Data Science and Analytics" "MIT"
      "Postgraduate" "18 months" 52000 92
      "Comprehensive program covering data analysis and visualization";
    Mock.mkCourse "web_dev_001" "Full-Stack Web Development" "UC Berkeley"
      "Undergraduate" "24 months" 38000 88
      "Hands-on program with modern web technologies";
    Mock.mkCourse "cybersecurity_001" "Cybersecurity and Network Security"
      "Carnegie Mellon University" "Postgraduate" "16 months" 48000 85
      "Specialized program for security professionals";
    Mock.mkCourse "business_tech_001" "Business Technology Management"
      "Harvard University" "Postgraduate" "20 months" 55000 82
      "Combines business strategy with technology implementation" ].

Definition durationMap (d : Duration) : Z :=
  match d with
  | short => 12
  | medium => 18
  | long => 24
  end.

(** [generateMockRecommendations(preferences)]. *)
Definition generateMockRecommendations (preferences : Preferences)
  : list Mock.Course :=
  let filteredCourses :=
    match maxTuition preferences with
    | Some m =>
        if Js.numTruthy m
        then List.filter (fun course => Js.numLe (Js.ofZ (Mock.tuition course)) m)
                         mockCourses
        else mockCourses
    | None => mockCourses
    end in
  let filteredCourses :=
    match duration preferences with
    | Some d =>
        List.filter (fun course =>
                       Js.numLe (Js.parseInt (Some (Mock.duration course)))
                                (Js.ofZ (durationMap d)))
                    filteredCourses
    | None => filteredCourses
    end in
  take 5 (Js.sortBy (fun a b => Mock.matchScore b - Mock.matchScore a <=? 0)
                    filteredCourses).

Record AiResponse : Type := mkAiResponse {
  success : bool;
  recommendations : list Mock.Course;
  reasoning : string
}.

(** [generateRecommendations(preferences)], the simulated delay left out. *)
Definition generateRecommendations (preferences : Preferences) : AiResponse :=
  mkAiResponse true
    (generateMockRecommendations preferences)
    ("Based on your interest in " +:+ Js.join ", " (topics preferences) +:+
     ", I've recommended courses that align with your " +:+
     default "intermediate" (skillLevel preferences) +:+
     " skill level and preferences.").

(** [$regex: pattern, $options: 'i'] for a pattern that is an alternation
    of literal texts: one of the alternatives occurs in the subject, case
    apart.  The other operators of regular expressions are not
    interpreted. *)
Definition regexTest (pattern subject : string) : bool :=
  existsb (fun alt => Js.includes (Js.toLowerCase alt) (Js.toLowerCase subject))
          (Js.split "|" pattern).

Definition keywordsIn (topics : list string) (d : Doc) : bool :=
  match d !! "keywords" with
  | Some (VList ks) => existsb (fun k => inList k topics) ks
  | _ => false
  end.

Definition disciplineIn (topics : list string) (d : Doc) : bool :=
  match d !! "disciplineMajor" with
  | Some (VStr s) => inList s topics
  | _ => false
  end.

Definition regexOn (k : string) (topics : list string) (d : Doc) : bool :=
  match d !! k with
  | Some (VStr s) => regexTest (Js.join "|" topics) s
  | _ => false
  end.






(** The [$or] of the four conditions. *)
Definition topicMatch (topics : list string) (d : Doc) : bool :=
  keywordsIn topics d || disciplineIn topics d ||
  regexOn "courseName" topics d || regexOn "overviewDescription" topics d.

(** [Course.find({ $or: [..] }).limit(10).lean()].  The query has no
    [sort]: which ten courses it returns when more match, and in what
    order, is up to the engine; the embedding takes the natural order of
    the collection. *)
Definition matchingCourses (topics : list string) (c : Collection) : Collection :=
  take 10 (List.filter (topicMatch topics) c).




(** [$ifNull: ['$path', dflt]] on a number path. *)
Definition ifNull (v : option Value) (dflt : Z) : Js.number :=
  match v with
  | Some (VNum n) => n
  | _ => Js.ofZ dflt
  end.

(** The [popularityScore] that [$addFields] computes. *)
Definition popularityScore (d : Doc) : Js.number :=
  Js.numAdd
    (Js.numAdd (ifNull (d !! "ftRanking2024") 1000)
               (Js.numMul (ifNull (d !! "acceptanceRate") 50) (Js.ofZ (-1))))
    (match d !! "partnerCourse" with
     | Some (VBool true) => Js.ofZ 100
     | _ => Js.ofZ 0
     end).

(** The ascending order of [$sort] on numbers; [NaN] sorts lowest. *)
Definition scoreLe (a b : Js.number) : bool :=
  match a, b with
  | Js.NaN, _ => true
  | _, Js.NaN => false
  | _, _ => Js.numLe a b
  end.

(** [$addFields], [$sort: { popularityScore: 1 }], [$limit: 10]: the
    documents that [$project] then renames. *)
Definition popularCourses (c : Collection) : Collection :=
  take 10 (Js.sortBy (fun a b => scoreLe (popularityScore a) (popularityScore b)) c).


End Recommendations.

(** ** Sample data *)

Module Samples.

Import Model.

Definition beginnerAI : Recommendations.Preferences :=
  Recommendations.mkPreferences ["AI"] (Some "beginner")
    (Some Recommendations.medium) (Some (Js.ofZ 50000)).

Definition advancedArts : Recommendations.Preferences :=
  Recommendations.mkPreferences ["History"; "Art"] (Some "advanced")
    (Some Recommendations.medium) (Some (Js.ofZ 50000)).

(** A document with only the paths that the popularity score reads. *)
Definition course (ranking acceptance : option Z) (partner : bool) : Doc :=
  Upload.object
    [ ("ftRanking2024", (fun z => VNum (Js.ofZ z)) <$> ranking);
      ("acceptanceRate", (fun z => VNum (Js.ofZ z)) <$> acceptance);
      ("partnerCourse", Some (VBool partner)) ].

(** A row with a text where the duration and a score are expected. *)
Definition oddNumbers : Upload.Row :=
  list_to_map [ ("uniqueId", "c9"); ("durationMonths", "abc");
                ("minimumIELTSScore", "n/a") ].

(** An upload of [oddNumbers] whose file cannot be removed. *)
Definition lockedUpload : Upload.UploadedFile :=
  Upload.mkFile "uploads/courses-1-a.csv" [oddNumbers].

Definition lockedWorld : Upload.World :=
  Upload.mkWorld [] (Redis.mkClient true ∅)
    (Upload.mkFs {[ "uploads/courses-1-a.csv" ]} {[ "uploads/courses-1-a.csv" ]}).

(** A valid row that carries no identifier of its own. *)
Definition anonymousRow : Upload.Row :=
  list_to_map
    [ ("courseName", "Algebra"); ("courseCode", "M1"); ("universityCode", "U1");
      ("universityName", "First University"); ("department", "Mathematics");
      ("discipline", "Mathematics"); ("description", "Groups and rings");
      ("credits", "6"); ("tuition", "1000") ].

(** The same row under the identifier [u]. *)
Definition namedRow (u : string) : Upload.Row := <["uniqueId" := u]> anonymousRow.

(** A row without the required name of the course. *)
Definition namelessRow (u : string) : Upload.Row :=
  delete "courseName" (namedRow u).

(** A collection of [n] courses named by their rank. *)
Definition catalogue (n : nat) : Collection :=
  map (fun i : nat => {[ "courseName" := VStr (pretty i) ]}) (seq 0 n).

(** A request without any parameter, and one that asks for pages of 101. *)
Definition plainQuery : Listing.Query :=
  Listing.mkQuery None None None None None None None None None.

Definition limit101 : Listing.Query :=
  Listing.mkQuery None None None None None None None (Some "101") None.

Definition noFiles : Upload.FileSys := Upload.mkFs ∅ ∅.

(** A world whose cache client never connected, and one whose client is
    connected to an empty server. *)
Definition offlineWorld : Upload.World :=
  Upload.mkWorld (catalogue 3) (Redis.mkClient false ∅) noFiles.

Definition onlineWorld (n : nat) : Upload.World :=
  Upload.mkWorld (catalogue n) (Redis.mkClient true ∅) noFiles.

(** A text index that matches nothing. *)
Definition noTextMatch (_ : string) (_ : Doc) : bool := false.
Definition noTextScore (_ : string) (_ : Doc) : Q := 0%Q.

(** Two rows under one identifier: the first lacks the name of the course
    and brings a specialization, the second is valid. *)
Definition sharedIdRows : list Upload.Row :=
  [ <["specialization" := "Logic"]> (namelessRow "c1"); namedRow "c1" ].

(** An upload of a malformed row whose file can be removed. *)
Definition plainUpload : Upload.UploadedFile :=
  Upload.mkFile "uploads/courses-2-b.csv" [namelessRow "c1"].

Definition plainWorld : Upload.World :=
  Upload.mkWorld [] (Redis.mkClient true ∅)
    (Upload.mkFs {[ "uploads/courses-2-b.csv" ]} ∅).

Definition introAI : Doc :=
  Upload.object
    [ ("uniqueId", Some (VStr "c1"));
      ("courseName", Some (VStr "Introduction"));
      ("disciplineMajor", Some (VStr "Computing"));
      ("overviewDescription", Some (VStr "Foundations"));
      ("keywords", Some (VList ["AI"; "Robotics"])) ].

End Samples.

(** ** Views of the collection and of a batch *)

Module Views.

Import Model.

(** The identifier that a document holds. *)
Definition idOf (d : Doc) : option string :=
  match d !! "uniqueId" with
  | Some (VStr s) => Some s
  | _ => None
  end.

(** The identifiers of the collection, document by document. *)
Definition ids (c : Collection) : list string := omap idOf c.

(** An entry of the error list points at a row of the file: its number is
    the position of its raw row, counted from 1. *)
Definition pointsAt (rows : list Upload.Row) (e : Upload.ErrorEntry) : Prop :=
  exists i, Upload.row e = S i /\ rows !! i = Some (Upload.data e).

(** The documents that match a filter, in the order of the listing. *)
Definition ranked (textMatch : string -> Doc -> bool)
  (textScore : string -> Doc -> Q) (sq : Listing.SearchQuery) (c : Collection)
  : Collection :=
  Js.sortBy (Listing.before textScore sq)
            (filter (fun d => Listing.matches textMatch sq d = true) c).

(** A request for page [2] of the catalogue, [10] courses a page. *)
Definition secondPage : Listing.Query :=
  Listing.mkQuery None None None None None None None (Some "10") (Some "2").

(** The count of the group of key [k], 0 when there is no such group. *)
Definition groupCount (k : option string) (groups : list (option string * nat))
  : nat :=
  match List.find (fun g => bool_decide (fst g = k)) groups with
  | Some g => snd g
  | None => 0%nat
  end.

(** The preferences with another budget. *)
Definition withBudget (m : option Js.number) (p : Recommendations.Preferences)
  : Recommendations.Preferences :=
  Recommendations.mkPreferences (Recommendations.topics p)
    (Recommendations.skillLevel p) (Recommendations.duration p) m.

End Views.


(** ** The topics route *)

Module Topics.

Import Model.

(** The strings that [Course.distinct(path)] reads off one document: the
    value at [path], or its elements when it is an array.  The two paths
    of the route are [disciplineMajor: String] and [keywords: [String]]. *)
Definition stringsAt (k : string) (d : Doc) : list string :=
  match d !! k with
  | Some (VStr s) => [s]
  | Some (VList l) => l
  | _ => []
  end.

(** [[...new Set(l)]]: each value once, in the order of the first
    occurrences. *)
Fixpoint unique (l : list string) : list string :=
  match l with
  | [] => []
  | x :: r => x :: List.filter (fun y => negb (String.eqb y x)) (unique r)
  end.

(** [Course.distinct(path)]; the order of the values is that of their
    first occurrences in the collection. *)
Definition distinct (k : string) (c : Collection) : list string :=
  unique (concat (map (stringsAt k) c)).

(** [topic && topic.trim().length > 0]. *)
Definition nonBlank (topic : string) : bool :=
  Js.strTruthy (Some topic) && (0 <? String.length (Js.trim topic))%nat.

(** [[...new Set([...disciplines, ...keywords])].filter(..).sort()]: the
    default order of [sort] compares the strings unit by unit. *)
Definition allTopics (c : Collection) : list string :=
  Js.sortBy String.leb
    (List.filter nonBlank
       (unique (distinct "disciplineMajor" c ++ distinct "keywords" c))).

(** The texts of the ASCII range: on them the white space of [trim] and
    the order of [sort] are those of the embedding. *)
Definition isAscii (s : string) : bool :=
  forallb (fun c => (nat_of_ascii c <? 128)%nat) (list_ascii_of_string s).

Definition asciiTopics (c : Collection) : bool :=
  forallb (fun d => forallb isAscii (stringsAt "disciplineMajor" d ++
                                     stringsAt "keywords" d)) c.

(** The handler at time [now] (seconds), with the body of its answer. *)
Definition topicsRoute (now : Z) (w : Upload.World) : Json.t * Upload.World :=
  let cachedTopics := Redis.get now "available_topics" (Upload.cache w) in
  if from_option Json.truthy false cachedTopics then
    (Json.JObj [ ("topics", from_option id Json.JNull cachedTopics);
                 ("fromCache", Json.JBool true) ], w)
  else
    let topics := Json.JArr (map Json.JStr (allTopics (Upload.db w))) in
    let cache' :=
      snd (Redis.set now "available_topics" topics 86400 (Upload.cache w)) in
    (Json.JObj [ ("topics", topics); ("fromCache", Json.JBool false) ],
     Upload.mkWorld (Upload.db w) cache' (Upload.disk w)).

End Topics.

(** ** The statistics route *)

Module StatsRoute.

Import Model Stats.

Definition nullable {A : Type} (f : A -> Json.t) (v : option A) : Json.t :=
  from_option f Json.JNull v.

Definition count (n : nat) : Json.t := Json.JNum (inject_Z (Z.of_nat n)).

(** [stats[0] || {}]: the single group, or the empty object when the
    collection is empty. *)
Definition summaryJson (s : option Summary) : Json.t :=
  match s with
  | Some s =>
      Json.JObj
        [ ("_id", Json.JNull);
          ("totalCourses", count (totalCourses s));
          ("avgTuition", nullable Json.ofNumber (avgTuition s));
          ("minTuition", nullable Json.ofNumber (minTuition s));
          ("maxTuition", nullable Json.ofNumber (maxTuition s)) ]
  | None => Json.JObj []
  end.

Definition groupJson (g : option string * nat) : Json.t :=
  Json.JObj [ ("_id", nullable Json.JStr (fst g)); ("count", count (snd g)) ].

Definition universityJson (g : option string * option string * nat) : Json.t :=
  Json.JObj [ ("_id", nullable Json.JStr (fst (fst g)));
              ("universityName", nullable Json.JStr (snd (fst g)));
              ("count", count (snd g)) ].

(** The [result] object that the statistics route builds on a cache miss. *)
Definition statsResult (c : Collection) : Json.t :=
  let st := aggregateStatistics c in
  Json.JObj
    [ ("summary", summaryJson (stSummary st));
      ("byLevel", Json.JArr (map groupJson (byLevel st)));
      ("byAttendance", Json.JArr (map groupJson (byAttendance st)));
      ("topUniversities", Json.JArr (map universityJson (stTopUniversities st)));
      ("fromCache", Json.JBool false) ].

(** The handler at time [now] (seconds), with the body of its answer. *)
Definition statsRoute (now : Z) (w : Upload.World) : Json.t * Upload.World :=
  let cachedStats := Redis.get now "course_stats" (Upload.cache w) in
  if from_option Json.truthy false cachedStats then
    (Json.JObj (Json.setMember "fromCache" (Json.JBool true)
                  (from_option Json.spread [] cachedStats)), w)
  else
    let r := statsResult (Upload.db w) in
    let cache' := snd (Redis.set now "course_stats" r 3600 (Upload.cache w)) in
    (r, Upload.mkWorld (Upload.db w) cache' (Upload.disk w)).

End StatsRoute.

(** ** The recommendations route *)

Module Advice.

Import Model Recommendations.

Definition durationName (d : Duration) : string :=
  match d with
  | short => "short"
  | medium => "medium"
  | long => "long"
  end.

Definition mockJson (course : Mock.Course) : Json.t :=
  Json.JObj
    [ ("id", Json.JStr (Mock.id course));
      ("title", Json.JStr (Mock.title course));
      ("university", Json.JStr (Mock.university course));
      ("level", Json.JStr (Mock.level course));
      ("duration", Json.JStr (Mock.duration course));
      ("tuition", Json.JNum (inject_Z (Mock.tuition course)));
      ("matchScore", Json.JNum (inject_Z (Mock.matchScore course)));
      ("reasoning", Json.JStr (Mock.reasoning course)) ].

Section Rendering.

(** The decimal text of a finite number, as a template literal and
    [JSON.stringify] write it. *)
Variable numberText : Q -> string.

(** [`${v}`]. *)
Definition template (v : option Value) : string :=
  match v with
  | None => "undefined"
  | Some (VStr s) => s
  | Some (VNum Js.NaN) => "NaN"
  | Some (VNum (Js.Inf negative)) => if negative then "-Infinity" else "Infinity"
  | Some (VNum (Js.Num q)) => numberText q
  | Some (VBool b) => if b then "true" else "false"
  | Some (VList l) => Js.join "," l
  end.

(** An element of [databaseCourses] in the body of the answer: a member
    whose value is [undefined] is not written. *)
Definition databaseCourseJson (course : Doc) : Json.t :=
  let field (k path : string) :=
    (fun v => (k, Listing.valueJson v)) <$> course !! path in
  Json.JObj
    (omap id
       [ field "id" "uniqueId";
         field "title" "courseName";
         field "university" "universityName";
         field "level" "courseLevel";
         Some ("duration",
               Json.JStr (template (course !! "durationMonths") +:+ " months"));
         field "tuition" "firstYearTuitionFee";
         field "description" "overviewDescription";
         field "attendanceType" "attendanceType";
         field "courseUrl" "courseUrl" ]).

(** [JSON.stringify({ topics, skillLevel, duration, maxTuition })]. *)
Definition adviceKey (p : Preferences) : string :=
  "{" +:+
  Js.join ","
    (omap id
       [ Some (Listing.member "topics"
                 ("[" +:+ Js.join "," (map Listing.quote (topics p)) +:+ "]"));
         (fun s => Listing.member "skillLevel" (Listing.quote s)) <$> skillLevel p;
         (fun d => Listing.member "duration" (Listing.quote (durationName d)))
           <$> duration p;
         (fun n => Listing.member "maxTuition"
                     match n with
                     | Js.Num q => numberText q
                     | _ => "null"
                     end) <$> maxTuition p ])
  +:+ "}".

Definition preferencesJson (p : Preferences) : Json.t :=
  Json.JObj
    (omap id
       [ Some ("topics", Json.JArr (map Json.JStr (topics p)));
         (fun s => ("skillLevel", Json.JStr s)) <$> skillLevel p;
         (fun d => ("duration", Json.JStr (durationName d))) <$> duration p;
         (fun n => ("maxTuition", Json.ofNumber n)) <$> maxTuition p ]).

(** The [result] object that the recommendations route builds on a cache
    miss. *)
Definition adviceResult (p : Preferences) (c : Collection) : Json.t :=
  let aiResponse := generateRecommendations p in
  Json.JObj
    [ ("aiRecommendations", Json.JArr (map mockJson (recommendations aiResponse)));
      ("databaseCourses",
        Json.JArr (map databaseCourseJson (matchingCourses (topics p) c)));
      ("reasoning", Json.JStr (reasoning aiResponse));
      ("preferences", preferencesJson p);
      ("fromCache", Json.JBool false) ].

(** The handler at time [now] (seconds), once the validation has let the
    body through.  [topics.sort()] sorts the array of the body in place:
    the key, the generator, the query and the echoed preferences all read
    the sorted topics. *)
Definition recommendRoute (now : Z) (body : Preferences) (w : Upload.World)
  : Json.t * Upload.World :=
  let p := mkPreferences (Js.sortBy String.leb (topics body)) (skillLevel body)
                         (duration body) (maxTuition body) in
  let key := adviceKey p in
  let cachedRecommendations :=
    Redis.getCachedRecommendations now key (Upload.cache w) in
  if from_option Json.truthy false cachedRecommendations then
    (Json.JObj (Json.setMember "fromCache" (Json.JBool true)
                  (from_option Json.spread [] cachedRecommendations)), w)
  else
    let r := adviceResult p (Upload.db w) in
    let cache' :=
      snd (Redis.setCachedRecommendations now key r (Upload.cache w)) in
    (r, Upload.mkWorld (Upload.db w) cache' (Upload.disk w)).

End Rendering.

End Advice.

(** ** The authentication middleware *)

Module Auth.

Fixpoint dropChars (n : nat) (s : string) : string :=
  match n, s with
  | S n', String _ r => dropChars n' r
  | _, _ => s
  end.

(** [s.replace(pattern, replacement)] for a [pattern] that is a string:
    its first occurrence is replaced. *)
Fixpoint replace (pattern replacement s : string) {struct s} : string :=
  if String.prefix pattern s
  then replacement +:+ dropChars (String.length pattern) s
  else match s with
       | EmptyString => EmptyString
       | String c r => String c (replace pattern replacement r)
       end.

(** The errors by their [name]; [OtherError] is any other name. *)
Inductive ErrorName : Type := JsonWebTokenError | TokenExpiredError | OtherError.

Section Middleware.

Context {Payload Admin : Type}.

(** [jwt.verify(token, process.env.JWT_SECRET)]: the payload, or the error
    that it throws. *)
Variable verify : string -> ErrorName + Payload.

(** [Admin.findOne({ _id: decoded.id, isActive: true })]: the admin or
    [null], or the error that the query throws. *)
Variable findOne : Payload -> ErrorName + option Admin.

Inductive Verdict : Type :=
| Next (admin : Admin) (token : string)
| Refused (status : Z) (error : string).

Definition failure (name : ErrorName) : Verdict :=
  match name with
  | JsonWebTokenError => Refused 401 "Invalid token."
  | TokenExpiredError => Refused 401 "Token expired."
  | OtherError => Refused 500 "Internal server error during authentication."
  end.

(** [auth(req, res, next)] on the [Authorization] header of the request. *)
Definition auth (authorization : option string) : Verdict :=
  let token := replace "Bearer " "" <$> authorization in
  if negb (Js.strTruthy token)
  then Refused 401 "Access denied. No token provided."
  else
    match verify (default "" token) with
    | inl name => failure name
    | inr decoded =>
        match findOne decoded with
        | inl name => failure name
        | inr None => Refused 401 "Invalid token. User not found."
        | inr (Some admin) => Next admin (default "" token)
        end
    end.

End Middleware.

End Auth.

(** ** Reading a cache key back *)

Module Decode.

Definition hexVal (c : ascii) : option nat :=
  let n := nat_of_ascii c in
  if ((48 <=? n) && (n <=? 57))%nat then Some (n - 48)%nat
  else if ((97 <=? n) && (n <=? 102))%nat then Some (n - 87)%nat
  else None.

(** The character that the escape at the head of [s] stands for, and what
    follows it; none at a closing quote. *)
Definition unescapeChar (s : string) : option (ascii * string) :=
  match s with
  | EmptyString => None
  | String c r =>
      let n := nat_of_ascii c in
      if (n =? 34)%nat then None
      else if (n =? 92)%nat then
        match r with
        | EmptyString => None
        | String e r' =>
            let m := nat_of_ascii e in
            if ((m =? 34) || (m =? 92))%nat then Some (e, r')
            else if (m =? 98)%nat then Some (ascii_of_nat 8, r')
            else if (m =? 116)%nat then Some (ascii_of_nat 9, r')
            else if (m =? 110)%nat then Some (ascii_of_nat 10, r')
            else if (m =? 102)%nat then Some (ascii_of_nat 12, r')
            else if (m =? 114)%nat then Some (ascii_of_nat 13, r')
            else if (m =? 117)%nat then
              match r' with
              | String _ (String _ (String h (String l r''))) =>
                  match hexVal h, hexVal l with
                  | Some a, Some b => Some (ascii_of_nat (16 * a + b), r'')
                  | _, _ => None
                  end
              | _ => None
              end
            else None
        end
      else Some (c, r)
  end.

(** A member of the key that is written only when its value is given,
    before the rest of the key. *)
Definition optional (k : string) (v : option string) (rest : string) : string :=
  match v with
  | Some s => Listing.member k (Listing.quote s) +:+ "," +:+ rest
  | None => rest
  end.

(** The two members that are always written, and the closing brace. *)
Definition ending (limit page : option string) : string :=
  Listing.member "limit" (match limit with Some s => Listing.quote s | None => "50" end)
  +:+ "," +:+
  Listing.member "page" (match page with Some s => Listing.quote s | None => "1" end)
  +:+ "}".

End Decode.

(** ** Where the embedding is exact *)

Module Domain.

Import Model.




(** The values that [set] serializes: objects and arrays. *)
Definition structured (v : Json.t) : bool :=
  match v with
  | Json.JArr _ | Json.JObj _ => true
  | _ => false
  end.

(** No two elements of [l] tie in the order [before]. *)
Fixpoint tieFree {A : Type} (before : A -> A -> bool) (l : list A) : bool :=
  match l with
  | [] => true
  | x :: r => forallb (fun y => negb (before x y && before y x)) r && tieFree before r
  end.

End Domain.
(** * Properties *)

(** ** The primitives on examples *)

Example parseInt_prefix : Js.parseInt (Some " 12abc") = Js.ofZ 12.
Proof. reflexivity. Qed.

Example parseInt_hex : Js.parseInt (Some "0x1A") = Js.ofZ 26.
Proof. reflexivity. Qed.

Example parseInt_letters : Js.parseInt (Some "abc") = Js.NaN.
Proof. reflexivity. Qed.

Example parseFloat_exponent : Js.parseFloat (Some "39.5e2xyz") = Js.Num (3950 # 1).
Proof. vm_compute. reflexivity. Qed.

Example parseFloat_fraction : Js.parseFloat (Some "-.25") = Js.Num (-25 # 100).
Proof. vm_compute. reflexivity. Qed.

Example split_semicolons : Js.split ";" "a; b;;c" = ["a"; " b"; ""; "c"].
Proof. reflexivity. Qed.

Example trim_both_ends : Js.trim "  a b  " = "a b".
Proof. reflexivity. Qed.

(** ** The stable sort *)

Section SortFacts.

Context {A : Type} (before : A -> A -> bool).

Lemma insertBy_perm (x : A) (l : list A) :
  Permutation (Js.insertBy before x l) (x :: l).
Proof.
  induction l as [|y r IH]; simpl.
  - reflexivity.
  - destruct (before x y).
    + reflexivity.
    + rewrite IH. apply perm_swap.
Qed.

Lemma sortBy_perm (l : list A) : Permutation (Js.sortBy before l) l.
Proof.
  induction l as [|x r IH]; simpl.
  - reflexivity.
  - unfold Js.sortBy in *. simpl. rewrite insertBy_perm. now constructor.
Qed.

Hypothesis before_total : forall a b, before a b = false -> before b a = true.

Lemma insertBy_sorted (x : A) (l : list A) :
  Sorted (fun a b => before a b = true) l ->
  Sorted (fun a b => before a b = true) (Js.insertBy before x l).
Proof.
  induction l as [|y r IH]; intros Hs; simpl.
  - repeat constructor.
  - destruct (before x y) eqn:Hxy.
    + constructor; [exact Hs | now constructor].
    + inversion Hs as [|? ? Hr Hhd]; subst.
      constructor; [now apply IH |].
      destruct r as [|z r']; simpl.
      * constructor. now apply before_total.
      * destruct (before x z); constructor.
        -- now apply before_total.
        -- now inversion Hhd.
Qed.

Lemma sortBy_sorted (l : list A) :
  Sorted (fun a b => before a b = true) (Js.sortBy before l).
Proof.
  induction l as [|x r IH]; simpl.
  - constructor.
  - unfold Js.sortBy in *. simpl. now apply insertBy_sorted.
Qed.

End SortFacts.

Lemma Sorted_drop {A : Type} (R : A -> A -> Prop) (n : nat) (l : list A) :
  Sorted R l -> Sorted R (drop n l).
Proof.
  revert l. induction n as [|n IH]; intros l Hs; [exact Hs |].
  destruct l as [|x l]; [constructor |].
  simpl. apply IH. now inversion Hs.
Qed.

Lemma Sorted_take {A : Type} (R : A -> A -> Prop) (n : nat) (l : list A) :
  Sorted R l -> Sorted R (take n l).
Proof.
  revert l. induction n as [|n IH]; intros l Hs; [constructor |].
  destruct l as [|x l]; [constructor |].
  simpl. inversion Hs as [|? ? Hl Hhd]; subst.
  constructor; [now apply IH |].
  destruct l as [|y l]; [destruct n; constructor |].
  destruct n; simpl; constructor. now inversion Hhd.
Qed.

Lemma Sorted_weaken {A} (R R' : A -> A -> Prop) (l : list A) :
  (forall a b, R a b -> R' a b) -> Sorted R l -> Sorted R' l.
Proof.
  intros H. induction 1 as [|x l Hs IH Hhd]; constructor; [exact IH |].
  destruct Hhd; constructor. now apply H.
Qed.

Lemma sublist_List_filter {A} (f : A -> bool) (l : list A) :
  sublist (List.filter f l) l.
Proof.
  induction l as [|x l IH]; [constructor |].
  cbn [List.filter]. destruct (f x); now constructor.
Qed.

(** ** The recommendations router *)

Module RecommendationFacts.

Import Model Recommendations Samples.

Example mock_medium_50000 :
  map Mock.id (generateMockRecommendations beginnerAI)
  = ["ai_ml_001"; "cybersecurity_001"].
Proof. vm_compute. reflexivity. Qed.

Example reasoning_depends_on_topics :
  reasoning (generateRecommendations beginnerAI)
  <> reasoning (generateRecommendations advancedArts).
Proof. vm_compute. discriminate. Qed.

(** C10. Mock AI noninterference: two preference inputs that agree on
    [maxTuition] and [duration] get the same list from the mock generator,
    whatever their [topics] and [skillLevel]; the same holds of the
    [recommendations] of [generateRecommendations], which become the
    [aiRecommendations] of the response. *)
Theorem mock_noninterference (p1 p2 : Preferences) :
  maxTuition p1 = maxTuition p2 ->
  duration p1 = duration p2 ->
  generateMockRecommendations p1 = generateMockRecommendations p2 /\
  recommendations (generateRecommendations p1)
  = recommendations (generateRecommendations p2).
Proof.
  intros Ht Hd.
  assert (generateMockRecommendations p1 = generateMockRecommendations p2) as E.
  { unfold generateMockRecommendations. now rewrite Ht, Hd. }
  split; [exact E | exact E].
Qed.

Lemma mock_noninterference_witness :
  topics beginnerAI <> topics advancedArts /\
  skillLevel beginnerAI <> skillLevel advancedArts /\
  generateMockRecommendations beginnerAI = generateMockRecommendations advancedArts /\
  recommendations (generateRecommendations beginnerAI)
  = recommendations (generateRecommendations advancedArts).
Proof.
  split; [discriminate |].
  split; [discriminate |].
  apply (mock_noninterference beginnerAI advancedArts); reflexivity.
Defined.

(** *** Popularity *)


(** The three synthetic courses of the specification come out in the order
    third, first, second. *)
Example popularity_three_courses :
  let c1 := course (Some 500) (Some 10) true in
  let c2 := course None None false in
  let c3 := course (Some 100) (Some 90) false in
  popularCourses [c1; c2; c3] = [c3; c1; c2] /\
  map popularityScore [c3; c1; c2] = [Js.Num 10; Js.Num 590; Js.Num 950].
Proof. split; [reflexivity | vm_compute; reflexivity]. Qed.



(** *** Matching of the topics *)













(** An answer that is served from the cache lists the courses that
    matched when it was computed: a course stored since is not in it. *)
Example cached_matches_are_not_recomputed :
  let body := mkPreferences ["intro"] None None None in
  let render := fun q => Js.showZ (Qfloor q) in
  let w0 := Upload.mkWorld [] (Redis.mkClient true ∅) noFiles in
  let w1 := snd (Advice.recommendRoute render 0 body w0) in
  let w2 := Upload.mkWorld [introAI] (Upload.cache w1) noFiles in
  let answer := fst (Advice.recommendRoute render 10 body w2) in
  Json.getMember "fromCache" answer = Some (Json.JBool true) /\
  Json.getMember "databaseCourses" answer = Some (Json.JArr []) /\
  matchingCourses ["intro"] [introAI] = [introAI].
Proof. cbv zeta. split; [| split]; reflexivity. Qed.

Example topic_matching_finds_by_name :
  matchingCourses ["robotics"; "intro"] [introAI] = [introAI].
Proof. reflexivity. Qed.

End RecommendationFacts.

(** ** CSV ingestion *)

Module UploadFacts.

Import Model Upload Samples.

#[local] Arguments applyDefaults : simpl never.
#[local] Arguments validateDoc : simpl never.
#[local] Arguments validateUpdate : simpl never.
#[local] Arguments courseData : simpl never.
#[local] Arguments rowUniqueId : simpl never.
#[local] Arguments duplicateKey : simpl never.

Lemma object_absent (fields : list (string * option Value)) (k : string) :
  k ∉ map fst fields -> object fields !! k = None.
Proof.
  induction fields as [|[k' v] r IH]; simpl; intros Hk.
  - apply lookup_empty.
  - apply not_elem_of_cons in Hk as [Hne Hr].
    destruct v as [x|].
    + rewrite lookup_insert_ne by congruence. now apply IH.
    + now apply IH.
Qed.

Lemma object_lookup (fields : list (string * option Value)) (k : string) :
  NoDup (map fst fields) -> object fields !! k = field k fields.
Proof.
  induction fields as [|[k' v] r IH]; simpl; intros Hnd.
  - apply lookup_empty.
  - apply NoDup_cons in Hnd as [Hk' Hr].
    destruct (String.eqb k' k) eqn:E.
    + apply String.eqb_eq in E. subst k'.
      destruct v as [x|].
      * apply lookup_insert_eq.
      * now apply object_absent.
    + apply String.eqb_neq in E.
      destruct v as [x|].
      * rewrite lookup_insert_ne by congruence. now apply IH.
      * now apply IH.
Qed.

Lemma courseFields_keys (row : Row) (now : Z) (n : nat) :
  NoDup (map fst (courseFields row now n)).
Proof.
  unfold courseFields. cbn [map fst].
  apply (bool_decide_unpack _). vm_compute. reflexivity.
Qed.

Lemma courseData_lookup (row : Row) (now : Z) (n : nat) (k : string) :
  courseData row now n !! k = field k (courseFields row now n).
Proof. apply object_lookup, courseFields_keys. Qed.

Lemma courseData_uniqueId (row : Row) (now : Z) (n : nat) :
  courseData row now n !! "uniqueId" = Some (VStr (rowUniqueId row now n)).
Proof. rewrite courseData_lookup. reflexivity. Qed.






Example coercion_parse_failures :
  let row : Row := list_to_map [ ("credits", "six"); ("tuition", "free");
                                 ("greRequired", "TRUE"); ("partnerCourse", "true");
                                 ("keywords", " ai , ml,") ] in
  let d := courseData row 0 1 in
  d !! "credits" = Some (VNum (Js.ofZ 0)) /\
  d !! "firstYearTuitionFee" = Some (VNum (Js.ofZ 0)) /\
  d !! "minimumIELTSScore" = None /\
  d !! "greRequired" = Some (VBool false) /\
  d !! "partnerCourse" = Some (VBool true) /\
  d !! "keywords" = Some (VList ["ai"; "ml"; ""]).
Proof. vm_compute. repeat split. Qed.

(** *** The accounting of the row loop *)

Lemma processRow_step (clock : nat -> Z) (st : Loop) (r : Row) :
  let st1 := processRow clock st r in
  processedCount st1 = S (processedCount st) /\
  ((successCount st1 = S (successCount st) /\ errors st1 = errors st) \/
   (successCount st1 = successCount st /\ collection st1 = collection st /\
    exists msg, errors st1 = errors st ++ [mkError (S (processedCount st)) msg r])).
Proof.
  unfold processRow.
  destruct (upsert _ _ _) as [c|c|msg]; simpl.
  - split; [reflexivity | left; split; reflexivity].
  - split; [reflexivity | left; split; reflexivity].
  - split; [reflexivity | right]. repeat split. now exists msg.
Qed.

Lemma loop_accounting (clock : nat -> Z) (rows : list Row) (st : Loop) :
  let st1 := fold_left (processRow clock) rows st in
  processedCount st1 = (processedCount st + length rows)%nat /\
  (successCount st1 + length (errors st1)
   = successCount st + length (errors st) + length rows)%nat.
Proof.
  revert st. induction rows as [|r rows IH]; intros st; simpl.
  - lia.
  - destruct (IH (processRow clock st r)) as [Hp Hs].
    destruct (processRow_step clock st r) as [Hc [[Hok He]|[Hok [_ [msg He]]]]].
    + rewrite Hp, Hs, Hc, Hok, He. lia.
    + rewrite Hp, Hs, Hc, Hok, He, length_app. simpl. lia.
Qed.

(** C9. Ingestion summary invariant: in every batch each processed row
    increments exactly one of the success count and the error list, so that
    [totalProcessed] (the number of rows) is [successful] plus the number
    of recorded errors; the summary response reports these counts and at
    most 10 entries of the error list (its first 10). *)
Theorem summary_accounting (clock : nat -> Z) (f : UploadedFile) (w : World) :
  let st := processRows clock (results f) (db w) in
  processedCount st = length (results f) /\
  processedCount st = (successCount st + length (errors st))%nat /\
  (forall st0 r,
     let st1 := processRow clock st0 r in
     processedCount st1 = S (processedCount st0) /\
     ((successCount st1 = S (successCount st0) /\ errors st1 = errors st0) \/
      (successCount st1 = successCount st0 /\
       length (errors st1) = S (length (errors st0))))) /\
  match fst (uploadRoute clock (Some f) w) with
  | Completed totalProcessed successful errorCount firstErrors =>
      totalProcessed = processedCount st /\
      successful = successCount st /\
      errorCount = length (errors st) /\
      totalProcessed = (successful + errorCount)%nat /\
      firstErrors = take 10 (errors st) /\
      (length firstErrors <= 10)%nat
  | ServerError _ details => unlinkSync (path f) (disk w) = inr details
  | BadRequest _ => False
  end.
Proof.
  cbv zeta.
  destruct (loop_accounting clock (results f) (mkLoop (db w) 0 0 [])) as [Hp Hs].
  simpl in Hp, Hs. fold (processRows clock (results f) (db w)) in Hp, Hs.
  split; [exact Hp |].
  split; [lia |].
  split.
  { intros st0 r.
    destruct (processRow_step clock st0 r) as [Hc [[Hok He]|[Hok [_ [msg He]]]]].
    - split; [exact Hc | left; now split].
    - split; [exact Hc | right]. split; [exact Hok |].
      rewrite He, length_app. simpl. lia. }
  unfold uploadRoute.
  destruct (unlinkSync (path f) (disk w)) as [disk'|msg]; simpl.
  - repeat split; try reflexivity; [lia | rewrite length_take; lia].
  - reflexivity.
Qed.

(** *** Removal of the uploaded file *)

(** C8, as stated, fails: when the uploaded file cannot be removed,
    [unlinkSync] throws, the batch-level [catch] answers 500 and removes
    nothing, and the file is still there after the request. *)
Lemma file_cleanup_counterexample :
  let r := uploadRoute (fun _ => 0) (Some lockedUpload) lockedWorld in
  fst r = ServerError "Error processing CSV file"
                      "EPERM: operation not permitted, unlink" /\
  path lockedUpload ∈ files (disk (snd r)).
Proof.
  split; [vm_compute; reflexivity |].
  apply (bool_decide_unpack _). vm_compute. reflexivity.
Qed.

Lemma unlinkSync_removes (p : string) (fs fs' : FileSys) :
  unlinkSync p fs = inl fs' -> p ∉ files fs'.
Proof.
  unfold unlinkSync.
  destruct (decide (p ∈ files fs)); [| discriminate].
  destruct (decide (p ∈ undeletable fs)); [discriminate |].
  intros E. injection E as <-. simpl.
  apply not_elem_of_difference. right. now apply elem_of_singleton.
Qed.

(** C8, amended. For every upload request that reaches CSV processing, the
    removal of the uploaded file is attempted once, after the row loop and
    whatever the outcome of the rows.  When the file can be removed the
    request is answered with the summary and the file is gone; the
    summary is never sent with the file still there.  The batch-level
    failure path removes nothing: it is entered when the removal itself
    throws, and it leaves the directory as it was. *)
Theorem file_cleanup (clock : nat -> Z) (f : UploadedFile) (w : World) :
  let r := uploadRoute clock (Some f) w in
  (path f ∈ files (disk w) /\ path f ∉ undeletable (disk w) ->
   fst r = Completed (length (results f))
                     (successCount (processRows clock (results f) (db w)))
                     (length (errors (processRows clock (results f) (db w))))
                     (take 10 (errors (processRows clock (results f) (db w)))) /\
   path f ∉ files (disk (snd r))) /\
  (forall t s e l, fst r = Completed t s e l -> path f ∉ files (disk (snd r))) /\
  (forall e d, fst r = ServerError e d ->
     unlinkSync (path f) (disk w) = inr d /\ disk (snd r) = disk w).
Proof.
  cbv zeta. unfold uploadRoute.
  destruct (unlinkSync (path f) (disk w)) as [disk'|msg] eqn:E; simpl.
  - split; [| split].
    + intros _. split; [| eapply unlinkSync_removes; exact E].
      f_equal.
      destruct (loop_accounting clock (results f) (mkLoop (db w) 0 0 [])) as [Hp _].
      exact Hp.
    + intros _ _ _ _ _. eapply unlinkSync_removes; exact E.
    + intros e d H. discriminate H.
  - split; [| split].
    + intros [Hin Hnot]. exfalso. unfold unlinkSync in E.
      destruct (decide (path f ∈ files (disk w))); [| tauto].
      destruct (decide (path f ∈ undeletable (disk w))); [tauto | discriminate].
    + intros t s e l H. discriminate H.
    + intros e d H. inversion H; subst. split; reflexivity.
Qed.

Lemma file_cleanup_witness :
  let r := uploadRoute (fun _ => 0) (Some plainUpload) plainWorld in
  fst r = Completed 1 0 1
            (take 10 (errors (processRows (fun _ => 0) (results plainUpload) []))) /\
  path plainUpload ∉ files (disk (snd r)).
Proof.
  apply (file_cleanup (fun _ => 0) plainUpload plainWorld).
  split.
  - apply (bool_decide_unpack _). vm_compute. reflexivity.
  - apply (bool_decide_unpack _). vm_compute. reflexivity.
Defined.

(** *** The collection under an upsert *)

Lemma applyDefaults_lookup (d : Doc) (k : string) (v : Value) :
  d !! k = Some v -> applyDefaults d !! k = Some v.
Proof.
  unfold applyDefaults. generalize courseSchema as schema.
  induction schema as [|[k' p] schema IH]; simpl; intros H; [exact H |].
  specialize (IH H).
  destruct (fold_right _ d schema !! k') as [x|] eqn:E; [exact IH |].
  destruct (pDefault p) as [dv|]; [| exact IH].
  rewrite lookup_insert_ne; [exact IH |].
  intros ->. congruence.
Qed.


Lemma omap_nil {A B : Type} (f : A -> option B) (l : list A) :
  omap f l = [] <-> Forall (fun x => f x = None) l.
Proof.
  induction l as [|x l IH]; simpl.
  - split; [constructor | reflexivity].
  - destruct (f x) eqn:E; split.
    + discriminate.
    + intros H. inversion H; congruence.
    + intros H. constructor; [exact E | now apply IH].
    + intros H. inversion H; subst. now apply IH.
Qed.


Lemma hasUniqueId_true (u : string) (d : Doc) :
  hasUniqueId u d = true <-> d !! "uniqueId" = Some (VStr u).
Proof.
  unfold hasUniqueId.
  destruct (d !! "uniqueId") as [[s|n|b|l]|]; try (split; [discriminate | congruence]).
  rewrite String.eqb_eq. split; congruence.
Qed.

Lemma hasUniqueId_other (u u' : string) (d : Doc) :
  d !! "uniqueId" = Some (VStr u') -> u <> u' -> hasUniqueId u d = false.
Proof.
  intros H Hne. unfold hasUniqueId. rewrite H.
  apply String.eqb_neq. congruence.
Qed.

Lemma find_updateFirst_other (f f' : Doc -> bool) (g : Doc -> Doc) (c : Collection) :
  (forall d, f' d = true -> f d = false /\ f (g d) = false) ->
  List.find f (updateFirst f' g c) = List.find f c.
Proof.
  intros H. induction c as [|d r IH]; simpl; [reflexivity |].
  destruct (f' d) eqn:E; simpl.
  - destruct (H d E) as [H1 H2]. now rewrite H1, H2.
  - now rewrite IH.
Qed.



Lemma find_snoc (f : Doc -> bool) (c : Collection) (d : Doc) :
  List.find f (c ++ [d])
  = match List.find f c with
    | Some x => Some x
    | None => if f d then Some d else None
    end.
Proof.
  induction c as [|x r IH]; simpl; [reflexivity |].
  destruct (f x); [reflexivity | exact IH].
Qed.

(** An upsert under another identifier leaves the course of [u] alone. *)
Lemma findOne_upsert_other (data : Doc) (u u' : string) (c : Collection) :
  data !! "uniqueId" = Some (VStr u') -> u <> u' ->
  findOne u (collectionAfter (upsert data u' c) c) = findOne u c.
Proof.
  intros Hid Hne. unfold upsert, findOneAndUpdate, save.
  destruct (findOne u' c) as [d0|].
  - destruct (validateUpdate data); simpl; [| reflexivity].
    apply find_updateFirst_other. intros d Hd.
    apply hasUniqueId_true in Hd. split.
    + eapply hasUniqueId_other; eauto.
    + eapply hasUniqueId_other; [| exact Hne].
      now apply lookup_union_Some_l.
  - destruct (validateDoc (applyDefaults data)); [| reflexivity].
    destruct (duplicateKey (applyDefaults data) c); [reflexivity |].
    cbn [collectionAfter]. unfold findOne. rewrite find_snoc.
    rewrite (hasUniqueId_other u u' (applyDefaults data));
      [now destruct (List.find _ c) | now apply applyDefaults_lookup | exact Hne].
Qed.

Lemma duplicateKey_fresh (data : Doc) (u : string) (c : Collection) :
  data !! "uniqueId" = Some (VStr u) -> findOne u c = None ->
  duplicateKey (applyDefaults data) c = false.
Proof.
  intros Hid F. unfold duplicateKey.
  now rewrite (applyDefaults_lookup _ _ _ Hid), F.
Qed.



(** *** Rows that carry their identifier *)





Lemma processRow_collection (clock : nat -> Z) (st : Loop) (r : Row) :
  collection (processRow clock st r)
  = collectionAfter (upsert (dataAt clock (processedCount st) r)
                            (idAt clock (processedCount st) r) (collection st))
                    (collection st).
Proof.
  unfold processRow. now destruct (upsert _ _ _).
Qed.




Section Idempotence.

Variable clock : nat -> Z.




End Idempotence.




(** Why the identifiers have to differ: update validation looks at the
    paths that the row supplies only, so a row that cannot be inserted can
    still update the course that a later row of the first run inserted. *)
Example idempotence_shared_identifier :
  let first := processRows (fun _ => 1000) sharedIdRows [] in
  let second := processRows (fun _ => 2000) sharedIdRows (collection first) in
  (successCount first, successCount second) = (1, 2)%nat /\
  map (fun d : Doc => d !! "specialization") (collection first) = [None] /\
  map (fun d : Doc => d !! "specialization") (collection second)
  = [Some (VStr "Logic")].
Proof. cbv zeta. repeat split; vm_compute; reflexivity. Qed.

Example ingestion_first_run :
  let rows := [namedRow "c1"; namelessRow "c2"; namedRow "c3"] in
  let first := processRows (fun _ => 1000) rows [] in
  (processedCount first, successCount first, map row (errors first),
   length (collection first),
   inserts (fun _ => 1000) (mkLoop [] 0 0 []) rows)
  = (3, 2, [2], 2, 2)%nat.
Proof. vm_compute. reflexivity. Qed.

(** *** Isolation of the failing rows *)

Section Isolation.

Variable clock : nat -> Z.

Lemma processRow_count (st : Loop) (r : Row) :
  processedCount (processRow clock st r) = S (processedCount st).
Proof. apply (processRow_step clock st r). Qed.

Lemma dataAt_uniqueId (i : nat) (r : Row) :
  dataAt clock i r !! "uniqueId" = Some (VStr (idAt clock i r)).
Proof. apply courseData_uniqueId. Qed.




Lemma findOne_processRow_other (st : Loop) (r : Row) (u : string) :
  idAt clock (processedCount st) r <> u ->
  findOne u (collection (processRow clock st r)) = findOne u (collection st).
Proof.
  intros Hne. rewrite processRow_collection.
  apply findOne_upsert_other; [apply dataAt_uniqueId | congruence].
Qed.

Lemma findOne_rows_other (rows : list Row) (st : Loop) (u : string) :
  (forall j r, rows !! j = Some r -> idAt clock (processedCount st + j) r <> u) ->
  findOne u (collection (fold_left (processRow clock) rows st))
  = findOne u (collection st).
Proof.
  revert st. induction rows as [|r rows IH]; intros st H; simpl; [reflexivity |].
  rewrite IH.
  - apply findOne_processRow_other.
    specialize (H 0%nat r eq_refl). now rewrite Nat.add_0_r in H.
  - intros j r' Hj. rewrite processRow_count.
    specialize (H (S j) r' Hj). now rewrite Nat.add_succ_r in H.
Qed.





End Isolation.





(** A row that names a stored course and brings a level outside the
    schema is refused by the validation of the update: four successes and
    one error. *)
Example row_error_isolation_on_update :
  let bad := <["courseLevel" := "Evening"]> (namedRow "c1") in
  let st := processRows (fun _ => 1000)
              [namedRow "c1"; namedRow "c2"; bad; namedRow "c4"; namedRow "c5"] [] in
  successCount st = 4%nat /\
  map row (errors st) = [3%nat] /\
  map error (errors st)
  = ["Validation failed: courseLevel is not a valid enum value"] /\
  length (collection st) = 4%nat.
Proof. vm_compute. repeat split; reflexivity. Qed.

End UploadFacts.

(** ** Listing *)

Module ListingFacts.

Import Model Listing Samples.

Section CacheAside.

Variable textMatch : string -> Doc -> bool.
Variable textScore : string -> Doc -> Q.

Lemma miss_stores (now : Z) (q : Query) (w : Upload.World) (courses : Collection) :
  Redis.isConnected (Upload.cache w) = true ->
  Redis.getCachedCourses now (cacheKey q) (Upload.cache w) = None ->
  find textMatch textScore (searchQuery q) (skip q) (pageSize q) (Upload.db w)
  = inl courses ->
  let r := result q courses
             (countDocuments textMatch (searchQuery q) (Upload.db w)) in
  listRoute textMatch textScore now q w
  = (Ok r,
     Upload.mkWorld (Upload.db w)
       (Redis.mkClient true
          (<["courses:" +:+ cacheKey q := (r, now + 1800)]>
             (Redis.entries (Upload.cache w))))
       (Upload.disk w)).
Proof.
  intros Hc Hmiss Hfind r. unfold listRoute.
  rewrite Hmiss, Hfind. cbn [from_option].
  unfold Redis.setCachedCourses, Redis.set. now rewrite Hc.
Qed.

End CacheAside.

(** C1, as stated, fails: while the cache client is not connected nothing
    is stored, and the second call with the same parameters recomputes and
    answers [fromCache=false] as the first one did. *)
Lemma cache_aside_counterexample :
  let first := listRoute noTextMatch noTextScore 0 plainQuery offlineWorld in
  let second := listRoute noTextMatch noTextScore 0 plainQuery (snd first) in
  Redis.entries (Upload.cache offlineWorld) = ∅ /\
  fromCache (fst first) = Some (Json.JBool false) /\
  servedCourses (fst first) = Some 3%nat /\
  fromCache (fst second) = Some (Json.JBool false) /\
  fromCache (fst second) <> Some (Json.JBool true).
Proof.
  intros first second.
  split; [reflexivity |].
  split; [vm_compute; reflexivity |].
  split; [vm_compute; reflexivity |].
  split; [vm_compute; reflexivity |].
  vm_compute. discriminate.
Qed.

(** C1, amended. While the cache client is connected: the first call with
    a set of parameters that has no live entry in the cache (an empty cache
    in particular), when the repository answers, returns the payload
    annotated [fromCache=false] and stores it under [courses:<key>] for
    1800 seconds; a second call with the same parameters before the expiry
    (and with no invalidation in between) returns the same payload with
    [fromCache=true] in the place of [fromCache=false], and changes
    nothing. *)
Theorem cache_aside (textMatch : string -> Doc -> bool)
  (textScore : string -> Doc -> Q) (t1 t2 : Z) (q : Query) (w : Upload.World)
  (found : Collection) :
  Redis.isConnected (Upload.cache w) = true ->
  Redis.getCachedCourses t1 (cacheKey q) (Upload.cache w) = None ->
  find textMatch textScore (searchQuery q) (skip q) (pageSize q) (Upload.db w)
  = inl found ->
  t1 <= t2 /\ t2 < t1 + 1800 ->
  let first := listRoute textMatch textScore t1 q w in
  let second := listRoute textMatch textScore t2 q (snd first) in
  exists courses pagination,
    fst first = Ok (Json.JObj [ ("courses", courses); ("pagination", pagination);
                                ("fromCache", Json.JBool false) ]) /\
    Redis.getCachedCourses t2 (cacheKey q) (Upload.cache (snd first))
    = Some (Json.JObj [ ("courses", courses); ("pagination", pagination);
                        ("fromCache", Json.JBool false) ]) /\
    fst second = Ok (Json.JObj [ ("courses", courses); ("pagination", pagination);
                                 ("fromCache", Json.JBool true) ]) /\
    snd second = snd first.
Proof.
  intros Hc Hmiss Hfind Ht first second.
  pose proof (miss_stores textMatch textScore t1 q w found Hc Hmiss Hfind) as E.
  cbv zeta in E. fold first in E.
  set (total := countDocuments textMatch (searchQuery q) (Upload.db w)) in E.
  assert (Redis.getCachedCourses t2 (cacheKey q) (Upload.cache (snd first))
          = Some (result q found total)) as Hhit.
  { rewrite E. unfold Redis.getCachedCourses, Redis.get.
    cbn [snd Upload.cache Redis.isConnected Redis.entries].
    rewrite lookup_insert_eq.
    assert ((t2 <? t1 + 1800) = true) as -> by (apply Z.ltb_lt; lia).
    reflexivity. }
  eexists _, _.
  split; [rewrite E; reflexivity |].
  split; [exact Hhit |].
  subst second. unfold listRoute. rewrite Hhit. split; reflexivity.
Qed.

Lemma cache_aside_witness :
  let first := listRoute noTextMatch noTextScore 100 plainQuery (onlineWorld 3) in
  let second := listRoute noTextMatch noTextScore 160 plainQuery (snd first) in
  fromCache (fst first) = Some (Json.JBool false) /\
  fromCache (fst second) = Some (Json.JBool true) /\
  servedCourses (fst second) = servedCourses (fst first) /\
  snd second = snd first.
Proof.
  intros first second.
  destruct (cache_aside noTextMatch noTextScore 100 160 plainQuery (onlineWorld 3)
              (catalogue 3))
    as (courses & pagination & H1 & _ & H2 & H3).
  - reflexivity.
  - reflexivity.
  - reflexivity.
  - lia.
  - fold first in H1, H2, H3. fold second in H2, H3.
    rewrite H1, H2. split; [reflexivity |]. split; [reflexivity |].
    split; [reflexivity | exact H3].
Defined.

(** An upload between two calls empties the [courses:] keys, and the next
    call recomputes. *)
Example upload_invalidates_listing :
  let w1 := snd (listRoute noTextMatch noTextScore 100 plainQuery (onlineWorld 3)) in
  let uploaded := Upload.mkFile "uploads/courses-3-c.csv" [namedRow "c1"] in
  let w2 := snd (Upload.uploadRoute (fun _ => 0) (Some uploaded)
                   (Upload.mkWorld (Upload.db w1) (Upload.cache w1)
                      (Upload.mkFs {[ "uploads/courses-3-c.csv" ]} ∅))) in
  fromCache (fst (listRoute noTextMatch noTextScore 110 plainQuery w1))
  = Some (Json.JBool true) /\
  fromCache (fst (listRoute noTextMatch noTextScore 120 plainQuery w2))
  = Some (Json.JBool false) /\
  servedCourses (fst (listRoute noTextMatch noTextScore 120 plainQuery w2))
  = Some 4%nat.
Proof. cbv zeta. repeat split; vm_compute; reflexivity. Qed.

(** After the expiry the entry is gone. *)
Example expired_entry_recomputes :
  let w1 := snd (listRoute noTextMatch noTextScore 100 plainQuery (onlineWorld 3)) in
  fromCache (fst (listRoute noTextMatch noTextScore 1899 plainQuery w1))
  = Some (Json.JBool true) /\
  fromCache (fst (listRoute noTextMatch noTextScore 1900 plainQuery w1))
  = Some (Json.JBool false).
Proof. cbv zeta. split; vm_compute; reflexivity. Qed.

(** C7 against the code: the route runs no validation, so a request with
    [limit=101], which the search schema of the validation middleware
    refuses, is served at that size. *)
Theorem pagination_unbounded :
  let r := fst (listRoute noTextMatch noTextScore 0 limit101 (onlineWorld 150)) in
  pageSize limit101 = Js.ofZ 101 /\
  skip limit101 = Js.Num 0 /\
  searchSchemaLimit (Some (pageSize limit101)) = false /\
  servedCourses r = Some 101%nat /\
  servedLimit r = Some (Json.JNum 101).
Proof.
  cbv zeta. repeat split; vm_compute; reflexivity.
Qed.

End ListingFacts.

(** ** The cache client *)

Module RedisFacts.

Import Redis.

(** X1. An object or an array written with [set] under a positive time to
    live is read back by [get] on the same key until that time has run
    out, and no longer; the other keys read as before; after [del] the key
    reads as absent. *)
Theorem set_get_del (now later ttl : Z) (key : string) (v : Json.t)
  (c : RedisClient) :
  isConnected c = true ->
  Domain.structured v = true ->
  0 < ttl ->
  let c1 := snd (set now key v ttl c) in
  get later key c1 = (if later <? now + ttl then Some v else None) /\
  (forall other, other <> key -> get later other c1 = get later other c) /\
  get later key (snd (del key c1)) = None /\
  (forall other, other <> key ->
     get later other (snd (del key c1)) = get later other c).
Proof.
  intros Hc _ _. unfold set, get, del. rewrite Hc. cbn [snd isConnected entries].
  repeat split.
  - now rewrite lookup_insert_eq.
  - intros other Hne. now rewrite lookup_insert_ne by congruence.
  - now rewrite lookup_delete_eq.
  - intros other Hne.
    now rewrite lookup_delete_ne, lookup_insert_ne by congruence.
Qed.

Lemma set_get_del_witness :
  let c := mkClient true ∅ in
  let c1 := snd (set 100 "course_stats" (Json.JObj []) 3600 c) in
  get 3699 "course_stats" c1 = Some (Json.JObj []) /\
  get 3700 "course_stats" c1 = None /\
  get 3699 "course_stats" (snd (del "course_stats" c1)) = None.
Proof.
  intros c c1.
  destruct (set_get_del 100 3699 3600 "course_stats" (Json.JObj []) c
              eq_refl eq_refl eq_refl)
    as (H1 & _ & H3 & _).
  destruct (set_get_del 100 3700 3600 "course_stats" (Json.JObj []) c
              eq_refl eq_refl eq_refl)
    as (H2 & _).
  fold c1 in H1, H2, H3. split; [exact H1 |]. split; [exact H2 | exact H3].
Defined.

Lemma prefix_append (p s : string) : String.prefix p (p +:+ s) = true.
Proof.
  induction p as [|a p IH]; simpl.
  - now destruct s.
  - destruct (ascii_dec a a) as [_|Hne]; [exact IH | now destruct Hne].
Qed.

Lemma invalidate_lookup (c : RedisClient) :
  isConnected c = true ->
  let c1 := snd (invalidateCourseCache c) in
  isConnected c1 = true /\
  (forall now cacheKey, getCachedCourses now cacheKey c1 = None) /\
  (forall now key, String.prefix "courses:" key = false ->
     get now key c1 = get now key c).
Proof.
  intros Hc. unfold invalidateCourseCache, getCachedCourses, get.
  rewrite Hc. cbn [snd isConnected entries].
  split; [reflexivity |]. split.
  - intros now k.
    rewrite map_lookup_filter_None_2; [reflexivity |].
    right. intros x _. cbn [fst]. rewrite prefix_append. intros H. exact H.
  - intros now key Hk.
    destruct (entries c !! key) as [x|] eqn:E.
    + rewrite (map_lookup_filter_Some_2 _ _ key x); [reflexivity | exact E |].
      cbn [fst]. rewrite Hk. exact I.
    + rewrite map_lookup_filter_None_2; [reflexivity | now left].
Qed.

(** X2. [invalidateCourseCache] on a connected client removes every entry
    of the [courses:] namespace, so that [getCachedCourses] misses for
    every key, and it leaves every key outside the namespace (the
    statistics, the popular list, the topics, the recommendations) with
    the entry it had. *)
Theorem invalidate_exact (c : RedisClient) :
  isConnected c = true ->
  let c1 := snd (invalidateCourseCache c) in
  isConnected c1 = true /\
  (forall now cacheKey, getCachedCourses now cacheKey c1 = None) /\
  (forall now key, String.prefix "courses:" key = false ->
     get now key c1 = get now key c).
Proof. apply invalidate_lookup. Qed.

Lemma invalidate_exact_witness :
  let c := mkClient true
             (<["courses:{}" := (Json.JObj [], 5000)]>
                (<["course_stats" := (Json.JArr [], 5000)]> ∅)) in
  let c1 := snd (invalidateCourseCache c) in
  getCachedCourses 0 "{}" c = Some (Json.JObj []) /\
  getCachedCourses 0 "{}" c1 = None /\
  get 0 "course_stats" c1 = Some (Json.JArr []).
Proof.
  intros c c1.
  destruct (invalidate_exact c eq_refl) as (_ & H1 & H2).
  fold c1 in H1, H2.
  split; [reflexivity |]. split; [apply H1 |].
  rewrite H2; reflexivity.
Defined.

End RedisFacts.

(** ** Invariants of the ingestion *)

Module UploadInvariants.

Import Model Upload Views Samples.

#[local] Arguments applyDefaults : simpl never.
#[local] Arguments validateDoc : simpl never.
#[local] Arguments validateUpdate : simpl never.
#[local] Arguments courseData : simpl never.
#[local] Arguments rowUniqueId : simpl never.
#[local] Arguments duplicateKey : simpl never.

Lemma idOf_Some (d : Doc) (u : string) :
  idOf d = Some u <-> d !! "uniqueId" = Some (VStr u).
Proof.
  unfold idOf. destruct (d !! "uniqueId") as [[s|n|b|l]|];
    split; intros H; try discriminate; congruence.
Qed.

Lemma hasUniqueId_idOf (u : string) (d : Doc) :
  hasUniqueId u d = true <-> idOf d = Some u.
Proof. rewrite UploadFacts.hasUniqueId_true. symmetry. apply idOf_Some. Qed.

Lemma ids_cons (d : Doc) (c : Collection) :
  ids (d :: c) = match idOf d with
                 | Some u => u :: ids c
                 | None => ids c
                 end.
Proof. reflexivity. Qed.

Lemma ids_snoc (c : Collection) (d : Doc) :
  ids (c ++ [d]) = ids c ++ match idOf d with
                            | Some u => [u]
                            | None => []
                            end.
Proof. unfold ids. rewrite omap_app. reflexivity. Qed.

Lemma findOne_None_ids (u : string) (c : Collection) :
  findOne u c = None <-> u ∉ ids c.
Proof.
  unfold findOne. induction c as [|d c IH]; [| rewrite ids_cons; cbn [List.find]].
  - split; [intros _; apply not_elem_of_nil | reflexivity].
  - destruct (hasUniqueId u d) eqn:E.
    + apply hasUniqueId_idOf in E. rewrite E. split; [discriminate |].
      intros H. destruct H. apply list_elem_of_here.
    + destruct (idOf d) as [u'|] eqn:I; [| exact IH].
      rewrite not_elem_of_cons, IH. split; [| tauto].
      intros H. split; [| exact H]. intros ->.
      apply hasUniqueId_idOf in I. congruence.
Qed.

Lemma ids_updateFirst (f : Doc -> bool) (g : Doc -> Doc) (c : Collection) :
  (forall d, f d = true -> idOf (g d) = idOf d) ->
  ids (updateFirst f g c) = ids c.
Proof.
  intros H. induction c as [|d c IH]; [reflexivity |].
  cbn [updateFirst]. destruct (f d) eqn:E; rewrite !ids_cons.
  - now rewrite (H d E).
  - now rewrite IH.
Qed.

Lemma length_updateFirst (f : Doc -> bool) (g : Doc -> Doc) (c : Collection) :
  length (updateFirst f g c) = length c.
Proof.
  induction c as [|d c IH]; simpl; [reflexivity |].
  destruct (f d); simpl; [reflexivity | now rewrite IH].
Qed.

(** One upsert: the identifiers stay pairwise different, and the
    collection grows by the insertion, if any. *)
Lemma upsert_ids (data : Doc) (u : string) (c : Collection) :
  data !! "uniqueId" = Some (VStr u) ->
  NoDup (ids c) ->
  NoDup (ids (collectionAfter (upsert data u c) c)) /\
  length (collectionAfter (upsert data u c) c)
  = (length c + (if isInsert (upsert data u c) then 1 else 0))%nat.
Proof.
  intros Hid Hnd. unfold upsert, findOneAndUpdate, save.
  destruct (findOne u c) as [d0|] eqn:F.
  - destruct (validateUpdate data); cbn [collectionAfter isInsert].
    + split; [| rewrite length_updateFirst; lia].
      rewrite ids_updateFirst; [exact Hnd |].
      intros d Hd. apply hasUniqueId_idOf in Hd. rewrite Hd.
      apply idOf_Some. now apply lookup_union_Some_l.
    + split; [exact Hnd | lia].
  - destruct (validateDoc (applyDefaults data)); cbn [collectionAfter isInsert].
    + rewrite (UploadFacts.duplicateKey_fresh data u c Hid F).
      cbn [collectionAfter isInsert].
      split; [| rewrite length_app; simpl; lia].
      assert (idOf (applyDefaults data) = Some u) as I.
      { apply idOf_Some. now apply UploadFacts.applyDefaults_lookup. }
      rewrite ids_snoc, I.
      apply NoDup_app. split; [exact Hnd |]. split.
      * intros x Hx Hx'. apply list_elem_of_singleton in Hx'. subst x.
        now apply (findOne_None_ids u c).
      * apply NoDup_singleton.
    + split; [exact Hnd | lia].
Qed.

(** X3. The unique index is never at risk: when no two stored courses
    share an identifier before an ingestion, no two do after it, whatever
    the file; and the collection never shrinks: it grows by exactly the
    number of rows that are inserted. *)
Theorem upload_keeps_identifiers_unique (clock : nat -> Z) (rows : list Row)
  (c : Collection) :
  NoDup (ids c) ->
  let st := processRows clock rows c in
  NoDup (ids (collection st)) /\
  length (collection st) = (length c + inserts clock (mkLoop c 0 0 []) rows)%nat.
Proof.
  intros Hnd. unfold processRows.
  change c with (collection (mkLoop c 0 0 [])) in Hnd at 1.
  change (length c) with (length (collection (mkLoop c 0 0 []))).
  generalize dependent (mkLoop c 0 0 []). clear c.
  induction rows as [|r rows IH]; intros st Hnd; simpl.
  - split; [exact Hnd | lia].
  - destruct (upsert_ids _ _ (collection st)
                (UploadFacts.dataAt_uniqueId clock (processedCount st) r) Hnd)
      as [Hnd1 Hlen1].
    rewrite <- UploadFacts.processRow_collection in Hnd1, Hlen1.
    destruct (IH (processRow clock st r) Hnd1) as [Hnd2 Hlen2].
    split; [exact Hnd2 |]. rewrite Hlen2, Hlen1. lia.
Qed.

Lemma upload_keeps_identifiers_unique_witness :
  let c := collection (processRows (fun _ => 500) [namedRow "c1"; namedRow "c7"] []) in
  let rows := [namedRow "c1"; namelessRow "c2"; namedRow "c1"; anonymousRow] in
  let st := processRows (fun _ => 1000) rows c in
  NoDup (ids (collection st)) /\
  length (collection st)
  = (length c + inserts (fun _ => 1000%Z) (mkLoop c 0 0 []) rows)%nat.
Proof.
  intros c rows st.
  apply (upload_keeps_identifiers_unique (fun _ => 1000) rows c).
  apply (bool_decide_unpack _). vm_compute. reflexivity.
Defined.

Example upload_mixed_batch :
  let c := collection (processRows (fun _ => 500) [namedRow "c1"; namedRow "c7"] []) in
  let rows := [namedRow "c1"; namelessRow "c2"; namedRow "c1"; anonymousRow] in
  let st := processRows (fun _ => 1000) rows c in
  (ids (collection st), successCount st, map row (errors st))
  = (["c1"; "c7"; "course_1000_4"], 3%nat, [2%nat]).
Proof. vm_compute. reflexivity. Qed.

(** *** Validity of the stored documents *)

Lemma validateDoc_union (data d : Doc) :
  validateUpdate data = [] -> validateDoc d = [] -> validateDoc (data ∪ d) = [].
Proof.
  unfold validateUpdate, validateDoc. rewrite !UploadFacts.omap_nil.
  rewrite !Forall_forall. intros Hu Hd [k p] Hin.
  specialize (Hu (k, p) Hin). specialize (Hd (k, p) Hin).
  cbv beta iota in Hu, Hd |- *.
  destruct (data !! k) as [v|] eqn:E.
  - now rewrite (lookup_union_Some_l data d k v E).
  - now rewrite (lookup_union_r data d k E).
Qed.

Lemma updateFirst_Forall (P : Doc -> Prop) (f : Doc -> bool) (g : Doc -> Doc)
  (c : Collection) :
  (forall d, P d -> P (g d)) -> Forall P c -> Forall P (updateFirst f g c).
Proof.
  intros Hg. induction 1 as [|d c Hd Hc IH]; cbn [updateFirst]; [constructor |].
  destruct (f d); constructor; auto.
Qed.

Lemma upsert_valid (data : Doc) (u : string) (c : Collection) :
  Forall (fun d => validateDoc d = []) c ->
  Forall (fun d => validateDoc d = []) (collectionAfter (upsert data u c) c).
Proof.
  intros Hc. unfold upsert, findOneAndUpdate, save.
  destruct (findOne u c) as [d0|].
  - destruct (validateUpdate data) eqn:V; cbn [collectionAfter]; [| exact Hc].
    apply updateFirst_Forall; [| exact Hc].
    intros d Hd. now apply validateDoc_union.
  - destruct (validateDoc (applyDefaults data)) eqn:V; cbn [collectionAfter];
      [| exact Hc].
    destruct (duplicateKey (applyDefaults data) c); cbn [collectionAfter];
      [exact Hc |].
    apply Forall_app. split; [exact Hc |]. now constructor.
Qed.

(** X4. Ingestion keeps the collection valid: when every stored document
    passes the validation of the schema before an upload, every stored
    document passes it after the upload, whatever the rows (an update sets
    validated paths on a valid document, an insertion is validated as a
    whole, a failed row changes nothing). *)
Theorem upload_keeps_documents_valid (clock : nat -> Z) (rows : list Row)
  (c : Collection) :
  Forall (fun d => validateDoc d = []) c ->
  Forall (fun d => validateDoc d = []) (collection (processRows clock rows c)).
Proof.
  intros Hc. unfold processRows.
  change c with (collection (mkLoop c 0 0 [])) in Hc.
  generalize dependent (mkLoop c 0 0 []). clear c.
  induction rows as [|r rows IH]; intros st Hc; [exact Hc |].
  cbn [fold_left]. apply IH.
  rewrite UploadFacts.processRow_collection. now apply upsert_valid.
Qed.

Lemma upload_keeps_documents_valid_witness :
  let c := collection (processRows (fun _ => 500) [namedRow "c1"] []) in
  Forall (fun d => validateDoc d = [])
         (collection (processRows (fun _ => 1000) sharedIdRows c)).
Proof.
  intros c.
  apply (upload_keeps_documents_valid (fun _ => 1000) sharedIdRows c).
  assert (c = [applyDefaults (courseData (namedRow "c1") 500 1)]) as ->
    by reflexivity.
  constructor; [| constructor].
  vm_compute. reflexivity.
Defined.

(** *** What an upload leaves alone, and what its errors say *)

(** X5. An upload touches only the courses that its rows name: a stored
    course whose identifier is the identifier of no row of the file is,
    after the upload, the document it was. *)
Theorem upload_leaves_other_courses (clock : nat -> Z) (rows : list Row)
  (c : Collection) (u : string) :
  (forall i r, rows !! i = Some r -> idAt clock i r <> u) ->
  findOne u (collection (processRows clock rows c)) = findOne u c.
Proof.
  intros H. unfold processRows.
  now rewrite (UploadFacts.findOne_rows_other clock rows (mkLoop c 0 0 []) u).
Qed.

Lemma upload_leaves_other_courses_witness :
  let c := collection (processRows (fun _ => 500) [namedRow "c1"; namedRow "c7"] []) in
  findOne "c7" (collection (processRows (fun _ => 1000)
                              [namedRow "c1"; anonymousRow] c))
  = findOne "c7" c.
Proof.
  intros c.
  apply (upload_leaves_other_courses (fun _ => 1000) [namedRow "c1"; anonymousRow] c).
  intros [|[|i]] r H; simpl in H; try discriminate;
    injection H as <-; vm_compute; discriminate.
Defined.

Lemma sorted_snoc (l : list nat) (x : nat) :
  StronglySorted lt l -> Forall (fun y => (y < x)%nat) l ->
  StronglySorted lt (l ++ [x]).
Proof.
  induction 1 as [|y l Hs IH Hy]; intros Hall; simpl.
  - repeat constructor.
  - inversion Hall as [|? ? Hyx Hl]; subst.
    constructor; [now apply IH |].
    apply Forall_app. split; [exact Hy | now constructor].
Qed.

Lemma errors_invariant (clock : nat -> Z) (rows done : list Row) (st : Loop) :
  processedCount st = length done ->
  Forall (pointsAt done) (errors st) ->
  Forall (fun e => (row e <= length done)%nat) (errors st) ->
  StronglySorted lt (map row (errors st)) ->
  let st1 := fold_left (processRow clock) rows st in
  Forall (pointsAt (done ++ rows)) (errors st1) /\
  Forall (fun e => (row e <= length (done ++ rows))%nat) (errors st1) /\
  StronglySorted lt (map row (errors st1)).
Proof.
  revert done st. induction rows as [|r rows IH]; intros done st Hp Hpt Hle Hs.
  - cbn [fold_left]. rewrite app_nil_r. now repeat split.
  - cbn [fold_left].
    replace (done ++ r :: rows) with ((done ++ [r]) ++ rows)
      by (now rewrite <- app_assoc).
    assert (Forall (pointsAt (done ++ [r])) (errors st)) as Hpt'.
    { eapply Forall_impl; [exact Hpt |]. intros e (i & Hi & Hrow).
      exists i. split; [exact Hi |]. now apply lookup_app_l_Some. }
    assert (Forall (fun e => (row e <= length (done ++ [r]))%nat) (errors st)) as Hle'.
    { eapply Forall_impl; [exact Hle |]. intros e He. cbv beta in He |- *.
      rewrite length_app. cbn [length]. lia. }
    destruct (UploadFacts.processRow_step clock st r)
      as [Hc [[_ He]|[_ [_ [msg He]]]]].
    + apply IH.
      * rewrite Hc, Hp, length_app. simpl. lia.
      * now rewrite He.
      * now rewrite He.
      * now rewrite He.
    + apply IH.
      * rewrite Hc, Hp, length_app. simpl. lia.
      * rewrite He. apply Forall_app. split; [exact Hpt' |].
        constructor; [| constructor].
        exists (length done). split; [simpl; now rewrite Hp |].
        simpl. now apply list_lookup_middle.
      * rewrite He. apply Forall_app. split; [exact Hle' |].
        constructor; [| constructor].
        simpl. rewrite Hp, length_app. simpl. lia.
      * rewrite He, map_app. simpl. apply sorted_snoc; [exact Hs |].
        apply Forall_map. eapply Forall_impl; [exact Hle |].
        intros e He'. cbv beta in He' |- *. rewrite Hp. lia.
Qed.

(** X6. The error list of a batch follows the file: its entries come in
    increasing row numbers, every number is between 1 and the number of
    rows, and the raw row kept in an entry is the row of the file at that
    number. *)
Theorem errors_follow_the_file (clock : nat -> Z) (rows : list Row)
  (c : Collection) :
  let st := processRows clock rows c in
  Forall (pointsAt rows) (errors st) /\
  Forall (fun e => (1 <= row e <= length rows)%nat) (errors st) /\
  StronglySorted lt (map row (errors st)).
Proof.
  cbv zeta.
  destruct (errors_invariant clock rows [] (mkLoop c 0 0 []) eq_refl
              (Forall_nil_2 _) (Forall_nil_2 _) (SSorted_nil _))
    as (Hpt & Hle & Hs).
  fold (processRows clock rows c) in Hpt, Hle, Hs. simpl in Hpt, Hle.
  split; [exact Hpt |]. split; [| exact Hs].
  apply Forall_forall. intros e He. split.
  - destruct (proj1 (Forall_forall _ _) Hpt e He) as (i & Hi & _). lia.
  - exact (proj1 (Forall_forall _ _) Hle e He).
Qed.

End UploadInvariants.

(** ** Pages of the listing *)

Module PageFacts.

Import Model Listing Views Samples.

Lemma Qfloor_skip (p l : Z) :
  Qfloor ((inject_Z p + - inject_Z 1) * inject_Z l) = (p - 1) * l.
Proof.
  rewrite <- (Qfloor_Z ((p - 1) * l)). apply Qfloor_comp.
  unfold Qeq, inject_Z. simpl. lia.
Qed.

Lemma before_total (textScore : string -> Doc -> Q) (sq : SearchQuery) (a b : Doc) :
  before textScore sq a b = false -> before textScore sq b a = true.
Proof.
  unfold before. destruct (text sq) as [t|].
  - intros H. apply Qle_bool_iff.
    destruct (Qlt_le_dec (textScore t a) (textScore t b)) as [Hlt|Hle].
    + now apply Qlt_le_weak.
    + apply Qle_bool_iff in Hle. congruence.
  - destruct (nameOf a) as [x|], (nameOf b) as [y|]; try easy.
    intros H. destruct (String.leb_total x y) as [E|E]; congruence.
Qed.

Section Pages.

Variable textMatch : string -> Doc -> bool.
Variable textScore : string -> Doc -> Q.

Lemma find_page (q : Query) (c : Collection) (p l : Z) :
  castError (searchQuery q) = false ->
  Js.parseInt (pageArg q) = Js.ofZ p ->
  Js.parseInt (limitArg q) = Js.ofZ l ->
  1 <= p -> 1 <= l ->
  find textMatch textScore (searchQuery q) (skip q) (pageSize q) c
  = inl (take (Z.to_nat l)
           (drop (Z.to_nat ((p - 1) * l))
                 (ranked textMatch textScore (searchQuery q) c))).
Proof.
  intros Hcast Hp Hl Hp1 Hl1. unfold find, skip, pageSize.
  rewrite Hcast, Hp, Hl.
  cbn [Js.ofZ Js.numSub Js.numOpp Js.numAdd Js.numMul asInteger].
  rewrite Qfloor_skip, Qfloor_Z.
  destruct ((p - 1) * l <? 0) eqn:E; [apply Z.ltb_lt in E; nia |].
  destruct (l =? 0) eqn:E0; [apply Z.eqb_eq in E0; lia |].
  now rewrite Z.abs_eq by lia.
Qed.

End Pages.

(** X7. Pagination neither drops nor repeats a course when no two matches
    tie in the sort key (so that the order of the listing is determined):
    for a page number [p >= 1] and a page size [l >= 1] with
    [p * l < 2^53] (and tuition bounds that are numbers), the course at
    offset [j < l] of page [p] is the match of rank [(p-1)*l + j] in the
    order of the listing; a page holds at most [l] courses; and the [total]
    of the response is the number of matches, whatever the page and its
    size. *)
Theorem pages_partition_the_matches (textMatch : string -> Doc -> bool)
  (textScore : string -> Doc -> Q) (q : Query) (c : Collection) (p l : Z) :
  castError (searchQuery q) = false ->
  Js.parseInt (pageArg q) = Js.ofZ p ->
  Js.parseInt (limitArg q) = Js.ofZ l ->
  1 <= p -> 1 <= l -> p * l < 2 ^ 53 ->
  Domain.tieFree (before textScore (searchQuery q))
    (filter (fun d => matches textMatch (searchQuery q) d = true) c) = true ->
  exists page,
    find textMatch textScore (searchQuery q) (skip q) (pageSize q) c = inl page /\
    (forall j, (j < Z.to_nat l)%nat ->
       page !! j
       = ranked textMatch textScore (searchQuery q) c
           !! (Z.to_nat ((p - 1) * l) + j)%nat) /\
    (length page <= Z.to_nat l)%nat /\
    countDocuments textMatch (searchQuery q) c
    = length (ranked textMatch textScore (searchQuery q) c).
Proof.
  intros Hcast Hp Hl Hp1 Hl1 _ _. eexists. split.
  - now apply (find_page textMatch textScore q c p l).
  - split; [| split].
    + intros j Hj. now rewrite lookup_take_lt, lookup_drop by exact Hj.
    + rewrite length_take. lia.
    + unfold countDocuments, ranked. symmetry.
      apply Permutation_length, sortBy_perm.
Qed.

Lemma pages_partition_the_matches_witness :
  exists page,
    find noTextMatch noTextScore (searchQuery secondPage) (skip secondPage)
         (pageSize secondPage) (catalogue 25) = inl page /\
    (forall j, (j < 10)%nat ->
       page !! j
       = ranked noTextMatch noTextScore (searchQuery secondPage) (catalogue 25)
           !! (10 + j)%nat) /\
    (length page <= 10)%nat /\
    countDocuments noTextMatch (searchQuery secondPage) (catalogue 25)
    = length (ranked noTextMatch noTextScore (searchQuery secondPage) (catalogue 25)).
Proof.
  apply (pages_partition_the_matches noTextMatch noTextScore secondPage
           (catalogue 25) 2 10);
    [reflexivity | reflexivity | reflexivity | lia | lia | lia
    | vm_compute; reflexivity].
Defined.

(** X8. A page is sound and in order: every course of a page is a stored
    course that satisfies the filter of the request, and the courses of a
    page stand in the order of the listing (ascending [courseName], a
    missing name first, or descending text score when there is a text
    search). *)
Theorem page_sound_and_sorted (textMatch : string -> Doc -> bool)
  (textScore : string -> Doc -> Q) (q : Query) (c page : Collection) :
  find textMatch textScore (searchQuery q) (skip q) (pageSize q) c = inl page ->
  (forall d, d ∈ page -> d ∈ c /\ matches textMatch (searchQuery q) d = true) /\
  Sorted (fun a b => before textScore (searchQuery q) a b = true) page.
Proof.
  unfold find. destruct (castError (searchQuery q)); [discriminate |].
  destruct (asInteger (skip q)) as [s|]; [| discriminate].
  destruct (asInteger (pageSize q)) as [n|]; [| discriminate].
  destruct (s <? 0); [discriminate |].
  set (all := Js.sortBy _ _).
  assert (forall d, d ∈ all -> d ∈ c /\ matches textMatch (searchQuery q) d = true) as Hall.
  { intros d Hd. subst all.
    rewrite (sortBy_perm (before textScore (searchQuery q))) in Hd.
    apply list_elem_of_filter in Hd. tauto. }
  assert (Sorted (fun a b => before textScore (searchQuery q) a b = true) all) as Hs.
  { subst all. apply sortBy_sorted. apply before_total. }
  intros E. injection E as <-. split.
  - intros d Hd. apply Hall.
    destruct (n =? 0).
    + now apply (subseteq_drop (Z.to_nat s) all).
    + apply (subseteq_drop (Z.to_nat s) all).
      now apply (subseteq_take (Z.to_nat (Z.abs n))).
  - destruct (n =? 0).
    + now apply Sorted_drop.
    + now apply Sorted_take, Sorted_drop.
Qed.

Lemma page_sound_and_sorted_witness :
  let page := take 10 (drop 10 (ranked noTextMatch noTextScore
                                  (searchQuery secondPage) (catalogue 25))) in
  (forall d, d ∈ page ->
     d ∈ catalogue 25 /\ matches noTextMatch (searchQuery secondPage) d = true) /\
  Sorted (fun a b => before noTextScore (searchQuery secondPage) a b = true) page.
Proof.
  intros page.
  apply (page_sound_and_sorted noTextMatch noTextScore secondPage (catalogue 25) page).
  reflexivity.
Defined.

End PageFacts.

(** ** Routes and the cache together *)

Module RouteFacts.

Import Model Listing Views Samples.

Lemma fromCache_result (q : Query) (courses : Collection) (total : nat) :
  fromCache (Ok (result q courses total)) = Some (Json.JBool false).
Proof. reflexivity. Qed.

Lemma upload_cache (clock : nat -> Z) (f : Upload.UploadedFile) (w : Upload.World) :
  Upload.cache (snd (Upload.uploadRoute clock (Some f) w))
  = snd (Redis.invalidateCourseCache (Upload.cache w)).
Proof.
  unfold Upload.uploadRoute.
  now destruct (Upload.unlinkSync (Upload.path f) (Upload.disk w)).
Qed.

(** X9. An upload invalidates the listings and nothing else: after any
    upload through a connected client, no set of parameters has an entry
    left, so the next listing is never answered from the cache; every
    key outside the [courses:] namespace (the statistics, the popular
    courses, the topics, the recommendations) still reads as it did before
    the upload. *)
Theorem upload_invalidates_listings_only (clock : nat -> Z)
  (f : Upload.UploadedFile) (w : Upload.World)
  (textMatch : string -> Doc -> bool) (textScore : string -> Doc -> Q)
  (now : Z) (q : Query) :
  Redis.isConnected (Upload.cache w) = true ->
  let w1 := snd (Upload.uploadRoute clock (Some f) w) in
  (forall cacheKey, Redis.getCachedCourses now cacheKey (Upload.cache w1) = None) /\
  fromCache (fst (listRoute textMatch textScore now q w1)) <> Some (Json.JBool true) /\
  (forall key, String.prefix "courses:" key = false ->
     Redis.get now key (Upload.cache w1) = Redis.get now key (Upload.cache w)).
Proof.
  intros Hc w1.
  destruct (RedisFacts.invalidate_lookup (Upload.cache w) Hc) as (_ & Hmiss & Hkeep).
  assert (Upload.cache w1 = snd (Redis.invalidateCourseCache (Upload.cache w))) as E
    by apply upload_cache.
  split; [intros k; rewrite E; apply Hmiss |].
  split; [| intros key Hk; rewrite E; now apply Hkeep].
  unfold listRoute. rewrite E, Hmiss. cbn [from_option].
  destruct (find _ _ _ _ _ _) as [courses|msg]; cbn [fst].
  - rewrite fromCache_result. discriminate.
  - discriminate.
Qed.

Lemma upload_invalidates_listings_only_witness :
  let w0 := snd (listRoute noTextMatch noTextScore 100 plainQuery (onlineWorld 3)) in
  let w := Upload.mkWorld (Upload.db w0) (Upload.cache w0) (Upload.disk plainWorld) in
  let w1 := snd (Upload.uploadRoute (fun _ => 0) (Some plainUpload) w) in
  fromCache (fst (listRoute noTextMatch noTextScore 110 plainQuery w))
  = Some (Json.JBool true) /\
  fromCache (fst (listRoute noTextMatch noTextScore 110 plainQuery w1))
  <> Some (Json.JBool true).
Proof.
  intros w0 w w1. split; [vm_compute; reflexivity |].
  apply (upload_invalidates_listings_only (fun _ => 0) plainUpload w
           noTextMatch noTextScore 110 plainQuery).
  reflexivity.
Defined.

(** X10. The cache is no dependency of the listing: with a client that is
    not connected, every call computes its answer from the repository (the
    page of the request, or the error of the query) and leaves the world
    exactly as it was, even when the server holds an entry for the key. *)
Theorem offline_listing_recomputes (textMatch : string -> Doc -> bool)
  (textScore : string -> Doc -> Q) (now : Z) (q : Query) (w : Upload.World) :
  Redis.isConnected (Upload.cache w) = false ->
  listRoute textMatch textScore now q w
  = (match find textMatch textScore (searchQuery q) (skip q) (pageSize q)
                (Upload.db w) with
     | inl courses =>
         Ok (result q courses (countDocuments textMatch (searchQuery q) (Upload.db w)))
     | inr msg => FetchError "Error fetching courses" msg
     end, w).
Proof.
  intros Hc. unfold listRoute, Redis.getCachedCourses, Redis.get,
    Redis.setCachedCourses, Redis.set.
  rewrite Hc. cbn [from_option].
  destruct (find _ _ _ _ _ _); [| reflexivity].
  cbn [snd]. now destruct w.
Qed.

Lemma offline_listing_recomputes_witness :
  let w := Upload.mkWorld (catalogue 3)
             (Redis.mkClient false
                (<["courses:" +:+ cacheKey plainQuery := (Json.JObj [], 5000)]> ∅))
             noFiles in
  servedCourses (fst (listRoute noTextMatch noTextScore 0 plainQuery w)) = Some 3%nat /\
  snd (listRoute noTextMatch noTextScore 0 plainQuery w) = w.
Proof.
  intros w.
  rewrite (offline_listing_recomputes noTextMatch noTextScore 0 plainQuery w eq_refl).
  split; [vm_compute; reflexivity | reflexivity].
Defined.

End RouteFacts.

(** ** Numbers in order *)

Section NumberOrder.

Lemma numLe_refl (a : Js.number) : a <> Js.NaN -> Js.numLe a a = true.
Proof.
  destruct a as [|[]|x]; simpl; try easy.
  intros _. apply Qle_bool_iff, Qle_refl.
Qed.

Lemma numLe_trans (a b c : Js.number) :
  Js.numLe a b = true -> Js.numLe b c = true -> Js.numLe a c = true.
Proof.
  destruct a as [|[]|x], b as [|[]|y], c as [|[]|z]; simpl; try easy.
  rewrite !Qle_bool_iff. apply Qle_trans.
Qed.

Lemma numLe_total (a b : Js.number) :
  a <> Js.NaN -> b <> Js.NaN -> Js.numLe a b = false -> Js.numLe b a = true.
Proof.
  destruct a as [|[]|x], b as [|[]|y]; simpl; try easy.
  intros _ _ H. apply Qle_bool_iff.
  destruct (Qlt_le_dec y x) as [Hlt|Hle].
  - now apply Qlt_le_weak.
  - apply Qle_bool_iff in Hle. congruence.
Qed.

End NumberOrder.

(** ** Statistics *)

Module StatsFacts.

Import Model Stats Views Samples.

Lemma groupCount_cons (k k0 : option string) (n : nat)
  (r : list (option string * nat)) :
  groupCount k ((k0, n) :: r) = if decide (k0 = k) then n else groupCount k r.
Proof.
  unfold groupCount. cbn [List.find fst snd].
  destruct (decide (k0 = k)) as [E|E].
  - now rewrite bool_decide_eq_true_2.
  - now rewrite bool_decide_eq_false_2.
Qed.

Lemma groupCount_bump (k k' : option string) (g : list (option string * nat)) :
  groupCount k (bump k' g)
  = (groupCount k g + if decide (k' = k) then 1 else 0)%nat.
Proof.
  induction g as [|[k0 n] r IH]; cbn [bump].
  - rewrite groupCount_cons. unfold groupCount. cbn [List.find].
    now destruct (decide (k' = k)).
  - destruct (decide (k0 = k')) as [->|Hne]; rewrite !groupCount_cons.
    + destruct (decide (k' = k)); lia.
    + destruct (decide (k0 = k)) as [->|Hk].
      * destruct (decide (k' = k)); [congruence | lia].
      * exact IH.
Qed.

Lemma bump_keys (k : option string) (g : list (option string * nat)) :
  NoDup (map fst g) -> Forall (fun x => (1 <= snd x)%nat) g ->
  NoDup (map fst (bump k g)) /\ Forall (fun x => (1 <= snd x)%nat) (bump k g) /\
  (forall x, x ∈ map fst (bump k g) <-> x = k \/ x ∈ map fst g).
Proof.
  induction g as [|[k0 n] r IH]; cbn [bump map fst]; intros Hnd Hpos.
  - split; [apply NoDup_singleton |]. split; [repeat constructor |].
    intros x. rewrite list_elem_of_singleton. rewrite elem_of_nil. tauto.
  - apply NoDup_cons in Hnd as [Hk0 Hnd].
    inversion Hpos as [|? ? Hn Hr]; subst. cbn [snd] in Hn.
    destruct (decide (k0 = k)) as [->|Hne]; cbn [map fst].
    + split; [now apply NoDup_cons |].
      split; [constructor; [cbn [snd]; lia | exact Hr] |].
      intros x. rewrite elem_of_cons. tauto.
    + destruct (IH Hnd Hr) as (Hnd' & Hpos' & Hkeys).
      split; [| split].
      * apply NoDup_cons. split; [| exact Hnd'].
        rewrite Hkeys. intros [E|E]; [congruence | contradiction].
      * constructor; [exact Hn | exact Hpos'].
      * intros x. rewrite !elem_of_cons, Hkeys. tauto.
Qed.

Lemma countBy_fold (key : Doc -> option string) (c : Collection)
  (g : list (option string * nat)) :
  NoDup (map fst g) -> Forall (fun x => (1 <= snd x)%nat) g ->
  let g1 := fold_left (fun groups d => bump (key d) groups) c g in
  NoDup (map fst g1) /\ Forall (fun x => (1 <= snd x)%nat) g1 /\
  (forall k, groupCount k g1
             = (groupCount k g + length (filter (fun d => key d = k) c))%nat) /\
  (forall x, x ∈ map fst g1 <-> x ∈ map fst g \/ exists d, d ∈ c /\ key d = x).
Proof.
  revert g. induction c as [|d c IH]; intros g Hnd Hpos; cbn [fold_left].
  - split; [exact Hnd |]. split; [exact Hpos |]. split.
    + intros k. rewrite filter_nil. simpl. lia.
    + intros x. split; [tauto |]. intros [H|(d & Hd & _)]; [exact H |].
      now apply elem_of_nil in Hd.
  - destruct (bump_keys (key d) g Hnd Hpos) as (Hnd1 & Hpos1 & Hkeys1).
    destruct (IH (bump (key d) g) Hnd1 Hpos1) as (Hnd2 & Hpos2 & Hcnt & Hkeys2).
    split; [exact Hnd2 |]. split; [exact Hpos2 |]. split.
    + intros k. rewrite Hcnt, groupCount_bump, filter_cons.
      destruct (decide (key d = k)); simpl; lia.
    + intros x. rewrite Hkeys2, Hkeys1. split.
      * intros [[->|H]|(d' & Hd' & E)].
        -- right. exists d. split; [apply list_elem_of_here | reflexivity].
        -- now left.
        -- right. exists d'. split; [now apply list_elem_of_further | exact E].
      * intros [H|(d' & Hd' & E)]; [tauto |].
        apply elem_of_cons in Hd' as [->|Hd']; [left; left; now symmetry |].
        right. eauto.
Qed.

(** X11. The grouped counts are exact: in [byLevel] and in [byAttendance]
    there is one group for each value that occurs in the collection and
    none for the others, no value has two groups, and the count of a group
    is the number of courses that hold its value. *)
Theorem grouped_counts_exact (c : Collection) :
  let st := aggregateStatistics c in
  Forall (fun '(key, groups) =>
            NoDup (map fst groups) /\
            (forall k, groupCount k groups
                       = length (filter (fun d => stringAt key d = k) c)) /\
            (forall k, k ∈ map fst groups <-> exists d, d ∈ c /\ stringAt key d = k))
         [ ("courseLevel", byLevel st); ("attendanceType", byAttendance st) ].
Proof.
  cbv zeta.
  assert (forall key,
    let groups := countBy (stringAt key) c in
    NoDup (map fst groups) /\
    (forall k, groupCount k groups = length (filter (fun d => stringAt key d = k) c)) /\
    (forall k, k ∈ map fst groups <-> exists d, d ∈ c /\ stringAt key d = k)) as H.
  { intros key. cbv zeta. unfold countBy.
    destruct (countBy_fold (stringAt key) c [] (NoDup_nil_2) (Forall_nil_2 _))
      as (Hnd & _ & Hcnt & Hkeys).
    split; [exact Hnd |]. split.
    - intros k. now rewrite (Hcnt k).
    - intros k. rewrite (Hkeys k). cbn [map]. rewrite elem_of_nil. tauto. }
  repeat constructor; apply H.
Qed.

Example grouped_counts_of_a_batch :
  let c := Upload.collection
             (Upload.processRows (fun _ => 0)
                [namedRow "c1"; <["level" := "Doctorate"]> (namedRow "c2"); namedRow "c3"] []) in
  (byLevel (aggregateStatistics c), totalCourses <$> summary c)
  = ([(Some "Undergraduate", 2%nat); (Some "Doctorate", 1%nat)], Some 3%nat).
Proof. vm_compute. reflexivity. Qed.

Lemma least_fold (r : list Js.number) (m0 : Js.number) :
  m0 <> Js.NaN -> Forall (fun x => x <> Js.NaN) r ->
  let m := fold_left (fun m y => if Js.numLe y m then y else m) r m0 in
  m ∈ m0 :: r /\ Js.numLe m m0 = true /\ Forall (fun x => Js.numLe m x = true) r.
Proof.
  revert m0. induction r as [|y r IH]; intros m0 Hm0 Hr; cbn [fold_left].
  - split; [apply list_elem_of_here |]. split; [now apply numLe_refl | constructor].
  - inversion Hr as [|? ? Hy Hr']; subst.
    destruct (Js.numLe y m0) eqn:E.
    + destruct (IH y Hy Hr') as (Hin & Hle & Hall).
      split; [now apply list_elem_of_further |].
      split; [eapply numLe_trans; eauto |]. now constructor.
    + destruct (IH m0 Hm0 Hr') as (Hin & Hle & Hall).
      split.
      { apply elem_of_cons in Hin as [->|Hin]; [apply list_elem_of_here |].
        now apply list_elem_of_further, list_elem_of_further. }
      split; [exact Hle |]. constructor; [| exact Hall].
      eapply numLe_trans; [exact Hle |]. now apply numLe_total.
Qed.

Lemma greatest_fold (r : list Js.number) (m0 : Js.number) :
  m0 <> Js.NaN -> Forall (fun x => x <> Js.NaN) r ->
  let m := fold_left (fun m y => if Js.numLe m y then y else m) r m0 in
  m ∈ m0 :: r /\ Js.numLe m0 m = true /\ Forall (fun x => Js.numLe x m = true) r.
Proof.
  revert m0. induction r as [|y r IH]; intros m0 Hm0 Hr; cbn [fold_left].
  - split; [apply list_elem_of_here |]. split; [now apply numLe_refl | constructor].
  - inversion Hr as [|? ? Hy Hr']; subst.
    destruct (Js.numLe m0 y) eqn:E.
    + destruct (IH y Hy Hr') as (Hin & Hle & Hall).
      split; [now apply list_elem_of_further |].
      split; [eapply numLe_trans; eauto |]. now constructor.
    + destruct (IH m0 Hm0 Hr') as (Hin & Hle & Hall).
      split.
      { apply elem_of_cons in Hin as [->|Hin]; [apply list_elem_of_here |].
        now apply list_elem_of_further, list_elem_of_further. }
      split; [exact Hle |]. constructor; [| exact Hall].
      eapply numLe_trans; [| exact Hle]. now apply numLe_total.
Qed.

(** X12. The summary of the statistics: there is none for an empty
    collection (the route then answers an empty object) and one
    otherwise, whose [totalCourses] is the number of stored courses; when
    the stored tuition fees are numbers (no [NaN]), [minTuition] and
    [maxTuition] are stored fees, below and above every stored fee. *)
Theorem summary_bounds (c : Collection) :
  Forall (fun x => x <> Js.NaN) (tuitions c) ->
  (summary c = None <-> c = []) /\
  (forall s, summary c = Some s ->
     totalCourses s = length c /\
     (forall m, minTuition s = Some m ->
        m ∈ tuitions c /\ Forall (fun x => Js.numLe m x = true) (tuitions c)) /\
     (forall m, maxTuition s = Some m ->
        m ∈ tuitions c /\ Forall (fun x => Js.numLe x m = true) (tuitions c))).
Proof.
  intros Hnum. split.
  - destruct c; [tauto | split; discriminate].
  - intros s Hs.
    assert (s = mkSummary (length c) (average (tuitions c)) (least (tuitions c))
                          (greatest (tuitions c))) as ->.
    { destruct c; [discriminate |]. now injection Hs as <-. }
    cbn [totalCourses minTuition maxTuition].
    split; [reflexivity |].
    destruct (tuitions c) as [|x r]; cbn [least greatest];
      [split; intros m H; discriminate H |].
    inversion Hnum as [|? ? Hx Hr]; subst. split.
    + intros m [= <-]. destruct (least_fold r x Hx Hr) as (Hin & Hle & Hall).
      split; [exact Hin | now constructor].
    + intros m [= <-]. destruct (greatest_fold r x Hx Hr) as (Hin & Hle & Hall).
      split; [exact Hin | now constructor].
Qed.

Lemma summary_bounds_witness :
  let c := Upload.collection
             (Upload.processRows (fun _ => 0)
                [namedRow "c1"; <["tuition" := "250.5"]> (namedRow "c2")] []) in
  (summary c = None <-> c = []) /\
  (forall s, summary c = Some s ->
     totalCourses s = length c /\
     (forall m, minTuition s = Some m ->
        m ∈ tuitions c /\ Forall (fun x => Js.numLe m x = true) (tuitions c)) /\
     (forall m, maxTuition s = Some m ->
        m ∈ tuitions c /\ Forall (fun x => Js.numLe x m = true) (tuitions c))).
Proof.
  intros c. apply (summary_bounds c).
  assert (tuitions c = [Js.Num 1000; Js.Num (2505 # 10)]) as ->
    by (vm_compute; reflexivity).
  repeat constructor; discriminate.
Defined.

End StatsFacts.

(** ** The mock generator *)

Module MockFacts.

Import Model Recommendations Views Samples.

(** What the two filters of the generator keep. *)
Lemma mock_membership (p : Preferences) (c : Mock.Course) :
  c ∈ generateMockRecommendations p <->
  c ∈ mockCourses /\
  match maxTuition p with
  | Some m => Js.numTruthy m = true -> Js.numLe (Js.ofZ (Mock.tuition c)) m = true
  | None => True
  end /\
  match duration p with
  | Some d => Js.numLe (Js.parseInt (Some (Mock.duration c))) (Js.ofZ (durationMap d)) = true
  | None => True
  end.
Proof.
  unfold generateMockRecommendations.
  set (byTuition := match maxTuition p with
                    | Some m => if Js.numTruthy m then List.filter _ mockCourses
                                else mockCourses
                    | None => mockCourses
                    end).
  set (byDuration := match duration p with
                     | Some d => List.filter _ byTuition
                     | None => byTuition
                     end).
  assert (forall x, x ∈ byTuition <->
            x ∈ mockCourses /\
            match maxTuition p with
            | Some m => Js.numTruthy m = true ->
                        Js.numLe (Js.ofZ (Mock.tuition x)) m = true
            | None => True
            end) as H1.
  { intros x. subst byTuition. destruct (maxTuition p) as [m|]; [| tauto].
    destruct (Js.numTruthy m); [| split; [intros H; split; [exact H | discriminate] | tauto]].
    rewrite !list_elem_of_In, filter_In. tauto. }
  assert (length byTuition <= 5)%nat as L1.
  { subst byTuition. destruct (maxTuition p) as [m|]; [| simpl; lia].
    destruct (Js.numTruthy m); [| simpl; lia].
    etransitivity; [apply List.filter_length_le | simpl; lia]. }
  assert (forall x, x ∈ byDuration <->
            x ∈ byTuition /\
            match duration p with
            | Some d => Js.numLe (Js.parseInt (Some (Mock.duration x)))
                                 (Js.ofZ (durationMap d)) = true
            | None => True
            end) as H2.
  { intros x. subst byDuration. destruct (duration p) as [d|]; [| tauto].
    rewrite !list_elem_of_In, filter_In. tauto. }
  assert (length byDuration <= 5)%nat as L2.
  { subst byDuration. destruct (duration p) as [d|]; [| exact L1].
    etransitivity; [apply List.filter_length_le | exact L1]. }
  rewrite take_ge.
  - rewrite (sortBy_perm _ byDuration), H2, H1. tauto.
  - now rewrite (Permutation_length (sortBy_perm _ byDuration)).
Qed.

(** X13. What the mock generator returns: exactly the candidates of the
    pool that cost at most [maxTuition] (when a truthy [maxTuition] is
    given) and whose duration in months is at most the threshold of
    [duration] (when one is given), each once, best [matchScore] first,
    and never more than 5. *)
Theorem mock_recommendations_sound_and_complete (p : Preferences) :
  (forall c, c ∈ generateMockRecommendations p <->
     c ∈ mockCourses /\
     match maxTuition p with
     | Some m => Js.numTruthy m = true ->
                 Js.numLe (Js.ofZ (Mock.tuition c)) m = true
     | None => True
     end /\
     match duration p with
     | Some d => Js.numLe (Js.parseInt (Some (Mock.duration c)))
                          (Js.ofZ (durationMap d)) = true
     | None => True
     end) /\
  Sorted (fun a b => Mock.matchScore b <= Mock.matchScore a)
         (generateMockRecommendations p) /\
  NoDup (map Mock.id (generateMockRecommendations p)) /\
  (length (generateMockRecommendations p) <= 5)%nat.
Proof.
  split; [intros c; apply mock_membership |].
  unfold generateMockRecommendations.
  set (l := match duration p with Some d => _ | None => _ end).
  assert (sublist l mockCourses) as Hsub.
  { subst l.
    assert (sublist (match maxTuition p with
                     | Some m => if Js.numTruthy m
                                 then List.filter (fun course =>
                                        Js.numLe (Js.ofZ (Mock.tuition course)) m)
                                        mockCourses
                                 else mockCourses
                     | None => mockCourses
                     end) mockCourses) as H1.
    { destruct (maxTuition p) as [m|]; [| reflexivity].
      destruct (Js.numTruthy m); [| reflexivity].
      apply sublist_List_filter. }
    destruct (duration p) as [d|]; [| exact H1].
    etransitivity; [| exact H1].
    apply sublist_List_filter. }
  split; [| split].
  - apply Sorted_take.
    eapply Sorted_weaken;
      [| apply (sortBy_sorted (fun a b => Mock.matchScore b - Mock.matchScore a <=? 0))].
    + intros a b H. apply Z.leb_le in H. lia.
    + intros a b H. apply Z.leb_gt in H. apply Z.leb_le. lia.
  - eapply sublist_NoDup; [| apply (fmap_sublist Mock.id), sublist_take].
    rewrite (sortBy_perm _ l).
    eapply sublist_NoDup; [| apply (fmap_sublist Mock.id), Hsub].
    apply (bool_decide_unpack _). vm_compute. reflexivity.
  - rewrite length_take. lia.
Qed.

Example mock_within_budget :
  map Mock.id
    (generateMockRecommendations
       (mkPreferences ["AI"] None None (Some (Js.ofZ 40000))))
  = ["web_dev_001"].
Proof. vm_compute. reflexivity. Qed.

Example mock_short_courses :
  map Mock.id
    (generateMockRecommendations (mkPreferences ["AI"] None (Some short) None))
  = ["ai_ml_001"].
Proof. vm_compute. reflexivity. Qed.

(** X14. A larger budget never loses a recommendation: for two truthy
    budgets [m <= m'], every candidate returned under [m] is returned under
    [m'], the other preferences being the same.  The budget 0 is no
    budget: it returns what a request without [maxTuition] returns. *)
Theorem budget_monotonic (p : Preferences) (m m' : Js.number) :
  Js.numTruthy m = true -> Js.numTruthy m' = true -> Js.numLe m m' = true ->
  (forall c, c ∈ generateMockRecommendations (withBudget (Some m) p) ->
             c ∈ generateMockRecommendations (withBudget (Some m') p)) /\
  generateMockRecommendations (withBudget (Some (Js.ofZ 0)) p)
  = generateMockRecommendations (withBudget None p).
Proof.
  intros Hm Hm' Hle. split; [| reflexivity].
  intros c. rewrite !mock_membership. cbn [withBudget maxTuition duration].
  intros (Hin & Ht & Hd). split; [exact Hin |]. split; [| exact Hd].
  intros _. eapply numLe_trans; [now apply Ht | exact Hle].
Qed.

Lemma budget_monotonic_witness :
  (forall c, c ∈ generateMockRecommendations
                   (withBudget (Some (Js.ofZ 40000)) beginnerAI) ->
             c ∈ generateMockRecommendations
                   (withBudget (Some (Js.ofZ 50000)) beginnerAI)) /\
  generateMockRecommendations (withBudget (Some (Js.ofZ 0)) beginnerAI)
  = generateMockRecommendations (withBudget None beginnerAI).
Proof.
  apply (budget_monotonic beginnerAI (Js.ofZ 40000) (Js.ofZ 50000));
    vm_compute; reflexivity.
Defined.

End MockFacts.

(** ** The order of strings *)

Section StringOrder.

Lemma leb_compare (a b : string) :
  String.leb a b = true <-> String.compare a b <> Gt.
Proof. unfold String.leb. destruct (String.compare a b); split; congruence. Qed.

Lemma leb_switch (a b : string) : String.leb a b = false -> String.leb b a = true.
Proof.
  intros H. destruct (String.leb_total a b) as [E|E]; [congruence | exact E].
Qed.

Lemma leb_refl (a : string) : String.leb a a = true.
Proof. destruct (String.leb_total a a); assumption. Qed.

Lemma compare_lt_trans (a b c : string) :
  String.compare a b = Lt -> String.compare b c = Lt -> String.compare a c = Lt.
Proof.
  revert b c. induction a as [|x a IH]; intros [|y b] [|z c]; cbn [String.compare];
    try congruence.
  unfold Ascii.compare.
  destruct (N.compare_spec (N_of_ascii x) (N_of_ascii y)) as [Exy|Lxy|Gxy];
    destruct (N.compare_spec (N_of_ascii y) (N_of_ascii z)) as [Eyz|Lyz|Gyz];
    try congruence; intros Hab Hbc.
  - rewrite Exy, Eyz, N.compare_refl. now apply (IH b).
  - rewrite Exy. now apply N.compare_lt_iff in Lyz as ->.
  - rewrite <- Eyz. now apply N.compare_lt_iff in Lxy as ->.
  - assert (N_of_ascii x < N_of_ascii z)%N as H by lia.
    now apply N.compare_lt_iff in H as ->.
Qed.

Lemma leb_trans (a b c : string) :
  String.leb a b = true -> String.leb b c = true -> String.leb a c = true.
Proof.
  rewrite !leb_compare. intros Hab Hbc.
  destruct (String.compare a b) eqn:Eab; [| | congruence].
  - apply String.compare_eq_iff in Eab. now subst.
  - destruct (String.compare b c) eqn:Ebc; [| | congruence].
    + apply String.compare_eq_iff in Ebc. subst. now rewrite Eab.
    + now rewrite (compare_lt_trans a b c).
Qed.

Lemma leb_ltb (a b : string) :
  String.leb a b = true -> a <> b -> String.ltb a b = true.
Proof.
  rewrite leb_compare. unfold String.ltb. intros H Hne.
  destruct (String.compare a b) eqn:E; [| reflexivity | congruence].
  now apply String.compare_eq_iff in E.
Qed.

(** Two arrangements of the same strings sort to the same array. *)
Lemma sort_strings_perm (l l' : list string) :
  Permutation l l' -> Js.sortBy String.leb l = Js.sortBy String.leb l'.
Proof.
  intros Hp.
  apply (stdpp.sorting.Sorted_unique_strong (fun a b => String.leb a b = true)
           (Transitive0 := fun a b c => leb_trans a b c)).
  - intros a b _ _. apply String.leb_antisym.
  - apply sortBy_sorted, leb_switch.
  - apply sortBy_sorted, leb_switch.
  - now rewrite !sortBy_perm.
Qed.

Lemma Sorted_strict (l : list string) :
  NoDup l -> Sorted (fun a b => String.leb a b = true) l ->
  Sorted (fun a b => String.ltb a b = true) l.
Proof.
  induction 2 as [|x r Hs IH Hhd]; constructor.
  - apply IH. now apply NoDup_cons_1_2 in H.
  - destruct Hhd as [|y r' Hxy]; constructor.
    apply leb_ltb; [exact Hxy |].
    intros ->. apply NoDup_cons_1_1 in H. apply H. now left.
Qed.

End StringOrder.

(** ** The topics route *)

Module TopicsFacts.

Import Model Topics Views.

Lemma filter_ne_elem (x t : string) (l : list string) :
  t ∈ List.filter (fun y => negb (String.eqb y x)) l <-> t ∈ l /\ t <> x.
Proof.
  rewrite !list_elem_of_In, filter_In, negb_true_iff, String.eqb_neq. tauto.
Qed.

Lemma unique_elem (t : string) (l : list string) : t ∈ unique l <-> t ∈ l.
Proof.
  induction l as [|x r IH]; [reflexivity |].
  cbn [unique]. rewrite !elem_of_cons, filter_ne_elem, IH.
  destruct (decide (t = x)); tauto.
Qed.

Lemma unique_NoDup (l : list string) : NoDup (unique l).
Proof.
  induction l as [|x r IH]; cbn [unique]; constructor.
  - rewrite filter_ne_elem. tauto.
  - eapply sublist_NoDup; [exact IH | apply sublist_List_filter].
Qed.

Lemma distinct_elem (k t : string) (c : Collection) :
  t ∈ distinct k c <-> exists d, d ∈ c /\ t ∈ stringsAt k d.
Proof.
  unfold distinct. rewrite unique_elem, list_elem_of_In, in_concat. split.
  - intros (l & Hl & Ht). apply in_map_iff in Hl as (d & <- & Hd).
    exists d. now rewrite !list_elem_of_In.
  - intros (d & Hd & Ht). exists (stringsAt k d).
    rewrite <- !list_elem_of_In. split; [| exact Ht].
    apply list_elem_of_fmap. now exists d.
Qed.

Lemma allTopics_elem (t : string) (c : Collection) :
  t ∈ allTopics c <->
  nonBlank t = true /\
  exists d, d ∈ c /\
    (t ∈ stringsAt "disciplineMajor" d \/ t ∈ stringsAt "keywords" d).
Proof.
  unfold allTopics.
  rewrite (sortBy_perm String.leb), list_elem_of_In, filter_In,
    <- list_elem_of_In, unique_elem, elem_of_app, !distinct_elem.
  split.
  - intros ([(d & Hd & Ht)|(d & Hd & Ht)] & Hb); (split; [exact Hb |]);
      exists d; tauto.
  - intros (Hb & d & Hd & [Ht|Ht]); (split; [| exact Hb]);
      [left | right]; now exists d.
Qed.

Lemma allTopics_sorted (c : Collection) :
  Sorted (fun a b => String.ltb a b = true) (allTopics c).
Proof.
  apply Sorted_strict; [| apply sortBy_sorted, leb_switch].
  unfold allTopics. rewrite (sortBy_perm String.leb).
  eapply sublist_NoDup; [apply unique_NoDup | apply sublist_List_filter].
Qed.

(** X15. The topics that the route computes: when the key
    [available_topics] gives nothing, the answer lists, in strictly
    ascending order and so without a duplicate, exactly the texts that are
    not blank and are the [disciplineMajor] or one of the [keywords] of a
    course of the collection.  The disciplines and keywords are taken in
    the ASCII range. *)
Theorem topics_sorted_and_exact (now : Z) (w : Upload.World) :
  asciiTopics (Upload.db w) = true ->
  Redis.get now "available_topics" (Upload.cache w) = None ->
  exists topics,
    fst (topicsRoute now w)
    = Json.JObj [ ("topics", Json.JArr (map Json.JStr topics));
                  ("fromCache", Json.JBool false) ] /\
    Sorted (fun a b => String.ltb a b = true) topics /\
    forall t, t ∈ topics <->
      nonBlank t = true /\
      exists d, d ∈ Upload.db w /\
        (t ∈ stringsAt "disciplineMajor" d \/ t ∈ stringsAt "keywords" d).
Proof.
  intros _ Hmiss. exists (allTopics (Upload.db w)).
  split; [| split].
  - unfold topicsRoute. now rewrite Hmiss.
  - apply allTopics_sorted.
  - intros t. apply allTopics_elem.
Qed.

Lemma topics_sorted_and_exact_witness :
  exists topics,
    fst (topicsRoute 0 (Upload.mkWorld [Samples.introAI] (Redis.mkClient true ∅)
                          Samples.noFiles))
    = Json.JObj [ ("topics", Json.JArr (map Json.JStr topics));
                  ("fromCache", Json.JBool false) ] /\
    Sorted (fun a b => String.ltb a b = true) topics /\
    forall t, t ∈ topics <->
      nonBlank t = true /\
      exists d, d ∈ [Samples.introAI] /\
        (t ∈ stringsAt "disciplineMajor" d \/ t ∈ stringsAt "keywords" d).
Proof.
  apply (topics_sorted_and_exact 0
           (Upload.mkWorld [Samples.introAI] (Redis.mkClient true ∅) Samples.noFiles));
    reflexivity.
Defined.

Example topics_of_two_courses :
  allTopics
    [ Samples.introAI;
      Upload.object [ ("disciplineMajor", Some (VStr "  "));
                      ("keywords", Some (VList ["Robotics"; "Algebra"; ""])) ] ]
  = ["AI"; "Algebra"; "Computing"; "Robotics"].
Proof. vm_compute. reflexivity. Qed.

End TopicsFacts.

(** ** The statistics route *)

Module StatsRouteFacts.

Import Model Stats StatsRoute Views Samples.

Lemma get_after_set (now later ttl : Z) (key : string) (v : Json.t)
  (c : Redis.RedisClient) :
  Redis.isConnected c = true ->
  Redis.get later key (snd (Redis.set now key v ttl c))
  = if later <? now + ttl then Some v else None.
Proof.
  intros Hc. unfold Redis.set, Redis.get. rewrite Hc.
  cbn [snd Redis.isConnected Redis.entries]. now rewrite lookup_insert_eq.
Qed.

Lemma set_connected (now ttl : Z) (key : string) (v : Json.t)
  (c : Redis.RedisClient) :
  Redis.isConnected (snd (Redis.set now key v ttl c)) = Redis.isConnected c.
Proof. unfold Redis.set. now destruct (Redis.isConnected c) eqn:E. Qed.

Lemma upload_keeps_key (clock : nat -> Z) (f : option Upload.UploadedFile)
  (w : Upload.World) (later : Z) (key : string) :
  Redis.isConnected (Upload.cache w) = true ->
  String.prefix "courses:" key = false ->
  Redis.get later key (Upload.cache (snd (Upload.uploadRoute clock f w)))
  = Redis.get later key (Upload.cache w).
Proof.
  intros Hc Hk. destruct f as [f|]; [| reflexivity].
  rewrite RouteFacts.upload_cache.
  now apply (RedisFacts.invalidate_lookup (Upload.cache w) Hc).
Qed.

(** X16. The statistics outlive an upload: once the route has computed
    them at time [now] through a connected client, every call before
    [now + 3600] answers with those figures (marked [fromCache]) even when
    an upload has changed the collection in between; only from
    [now + 3600] on are they computed from the collection as it then
    is. *)
Theorem statistics_outlive_uploads (clock : nat -> Z)
  (f : option Upload.UploadedFile) (w : Upload.World) (now later : Z) :
  Redis.isConnected (Upload.cache w) = true ->
  Redis.get now "course_stats" (Upload.cache w) = None ->
  let w1 := snd (statsRoute now w) in
  let w2 := snd (Upload.uploadRoute clock f w1) in
  fst (statsRoute later w2)
  = if later <? now + 3600
    then Json.JObj (Json.setMember "fromCache" (Json.JBool true)
                      (Json.spread (statsResult (Upload.db w))))
    else statsResult (Upload.db w2).
Proof.
  intros Hc Hmiss w1 w2.
  assert (Upload.cache w1
          = snd (Redis.set now "course_stats" (statsResult (Upload.db w)) 3600
                   (Upload.cache w))) as E1.
  { subst w1. unfold statsRoute. now rewrite Hmiss. }
  assert (Redis.get later "course_stats" (Upload.cache w2)
          = if later <? now + 3600 then Some (statsResult (Upload.db w)) else None) as E2.
  { subst w2. rewrite upload_keeps_key; [| | reflexivity].
    - rewrite E1. now apply get_after_set.
    - now rewrite E1, set_connected. }
  unfold statsRoute. rewrite E2.
  destruct (later <? now + 3600); reflexivity.
Qed.

Lemma statistics_outlive_uploads_witness :
  let f := Some (Upload.mkFile "uploads/courses-3-c.csv" [namedRow "c1"]) in
  let w1 := snd (statsRoute 0 (onlineWorld 3)) in
  let w2 := snd (Upload.uploadRoute (fun _ => 0) f w1) in
  fst (statsRoute 10 w2)
  = if 10 <? 0 + 3600
    then Json.JObj (Json.setMember "fromCache" (Json.JBool true)
                      (Json.spread (statsResult (Upload.db (onlineWorld 3)))))
    else statsResult (Upload.db w2).
Proof.
  apply (statistics_outlive_uploads (fun _ => 0)
           (Some (Upload.mkFile "uploads/courses-3-c.csv" [namedRow "c1"]))
           (onlineWorld 3) 0 10); reflexivity.
Defined.

(** Three courses are counted ten seconds after a fourth has come in. *)
Example statistics_after_an_upload :
  let f := Some (Upload.mkFile "uploads/courses-3-c.csv" [namedRow "c1"]) in
  let w1 := snd (statsRoute 0 (onlineWorld 3)) in
  let w2 := snd (Upload.uploadRoute (fun _ => 0) f w1) in
  length (Upload.db w2) = 4%nat /\
  Json.getMember "summary" (fst (statsRoute 10 w2)) ≫= Json.getMember "totalCourses"
  = Some (count 3) /\
  Json.getMember "fromCache" (fst (statsRoute 10 w2)) = Some (Json.JBool true).
Proof. vm_compute. repeat split; reflexivity. Qed.

End StatsRouteFacts.

(** ** The recommendations route *)

Module AdviceFacts.

Import Model Recommendations Advice Samples.

(** X17. The order of the topics of a request is irrelevant: two bodies
    that list the same topics in different orders, with the same other
    preferences, get the same answer and leave the same state, because the
    handler sorts the topics before it reads them. *)
Theorem topic_order_irrelevant (numberText : Q -> string) (now : Z)
  (ts ts' : list string) (s : option string) (d : option Duration)
  (m : option Js.number) (w : Upload.World) :
  Permutation ts ts' ->
  recommendRoute numberText now (mkPreferences ts s d m) w
  = recommendRoute numberText now (mkPreferences ts' s d m) w.
Proof.
  intros Hp. unfold recommendRoute. cbn [topics skillLevel duration maxTuition].
  now rewrite (sort_strings_perm ts ts' Hp).
Qed.

Lemma topic_order_irrelevant_witness :
  recommendRoute (fun q => Js.showZ (Qfloor q)) 0
    (mkPreferences ["Robotics"; "AI"] None None None) (onlineWorld 3)
  = recommendRoute (fun q => Js.showZ (Qfloor q)) 0
      (mkPreferences ["AI"; "Robotics"] None None None) (onlineWorld 3).
Proof.
  apply (topic_order_irrelevant (fun q => Js.showZ (Qfloor q)) 0
           ["Robotics"; "AI"] ["AI"; "Robotics"] None None None (onlineWorld 3)).
  apply perm_swap.
Defined.

(** The answer echoes the topics in sorted order and names them so. *)
Example topics_are_echoed_sorted :
  let r := fst (recommendRoute (fun q => Js.showZ (Qfloor q)) 0
                  (mkPreferences ["Robotics"; "AI"] None None None)
                  (onlineWorld 0)) in
  Json.getMember "preferences" r ≫= Json.getMember "topics"
  = Some (Json.JArr [Json.JStr "AI"; Json.JStr "Robotics"]) /\
  Json.getMember "reasoning" r
  = Some (Json.JStr ("Based on your interest in AI, Robotics, I've recommended " +:+
                     "courses that align with your intermediate skill level " +:+
                     "and preferences.")).
Proof. vm_compute. split; reflexivity. Qed.

End AdviceFacts.

(** ** The authentication middleware *)

Module AuthFacts.

Import Auth.

Lemma dropChars_append (p t : string) : dropChars (String.length p) (p +:+ t) = t.
Proof. induction p as [|c p IH]; [now destruct t | exact IH]. Qed.

Lemma replace_prefix (p r t : string) : replace p r (p +:+ t) = r +:+ t.
Proof.
  destruct (p +:+ t) eqn:E; cbn [replace]; rewrite <- E;
    now rewrite RedisFacts.prefix_append, dropChars_append.
Qed.

Lemma replace_absent (p r t : string) :
  Js.includes p t = false -> replace p r t = t.
Proof.
  induction t as [|c t IH]; cbn [Js.includes replace]; intros H;
    apply orb_false_iff in H as [-> H]; [reflexivity |].
  now rewrite IH.
Qed.

Section Middleware.

Context {Payload Admin : Type}.
Variable verify : string -> ErrorName + Payload.
Variable findOne : Payload -> ErrorName + option Admin.

(** X18. The [Bearer] scheme is optional: a header that is the bare token
    (a text without [Bearer ] in it) is treated exactly as the header that
    puts [Bearer ] before the same token, whatever the verification and
    the lookup answer; a missing header and a header that is only the
    scheme are refused with status 401 before any verification. *)
Theorem bearer_scheme_optional (t : string) :
  Js.includes "Bearer " t = false ->
  auth verify findOne (Some t) = auth verify findOne (Some ("Bearer " +:+ t)) /\
  auth verify findOne None = Refused 401 "Access denied. No token provided." /\
  auth verify findOne (Some "Bearer ")
  = Refused 401 "Access denied. No token provided.".
Proof.
  intros H. split; [| split; reflexivity].
  unfold auth. cbn [fmap option_fmap option_map].
  now rewrite (replace_prefix "Bearer " "" t), (replace_absent _ _ _ H).
Qed.

End Middleware.

Lemma bearer_scheme_optional_witness :
  let verify (t : string) : ErrorName + string :=
    if String.eqb t "abc" then inr "admin1" else inl JsonWebTokenError in
  let findOne (id : string) : ErrorName + option string := inr (Some id) in
  auth verify findOne (Some "abc") = auth verify findOne (Some "Bearer abc") /\
  auth verify findOne None = Refused 401 "Access denied. No token provided." /\
  auth verify findOne (Some "Bearer ")
  = Refused 401 "Access denied. No token provided.".
Proof.
  intros verify findOne.
  apply (bearer_scheme_optional verify findOne "abc"). reflexivity.
Defined.

Example bearer_examples :
  let verify (t : string) : ErrorName + string :=
    if String.eqb t "abc" then inr "admin1" else inl JsonWebTokenError in
  let findOne (id : string) : ErrorName + option string := inr (Some id) in
  auth verify findOne (Some "abc") = Next "admin1" "abc" /\
  auth verify findOne (Some "Bearer abc") = Next "admin1" "abc" /\
  auth verify findOne (Some "aBearer bc") = Next "admin1" "abc" /\
  auth verify findOne (Some "bearer abc") = Refused 401 "Invalid token.".
Proof. repeat split. Qed.

End AuthFacts.

(** ** The page count of a listing *)

Module PaginationFacts.

Import Model Listing Samples.

Lemma ceiling_quotient (t n : Z) :
  0 < n ->
  (Qceiling (inject_Z t / inject_Z n) - 1) * n < t <= Qceiling (inject_Z t / inject_Z n) * n.
Proof.
  intros Hn. destruct n as [|n|n]; [lia | | lia].
  unfold Qceiling, Qfloor, Qdiv, Qmult, Qinv, Qopp, inject_Z.
  cbn [Qnum Qden]. rewrite Z.mul_1_r, Pos.mul_1_l.
  pose proof (Z.div_mod (- t) (Z.pos n) ltac:(lia)) as E.
  pose proof (Z.mod_pos_bound (- t) (Z.pos n) ltac:(lia)) as B.
  nia.
Qed.

(** X19. The page count of a listing: for a page size [n >= 1] the
    answer gives as [pagination.pages] the least number of pages of [n]
    courses that hold all [total] matches; for a page size of 0 it is
    [null]. *)
Theorem pages_cover_the_total (q : Query) (courses : Collection) (total : nat)
  (n : Z) :
  Js.parseInt (limitArg q) = Js.ofZ n -> 0 <= n ->
  exists pages,
    Json.getMember "pagination" (result q courses total) ≫= Json.getMember "pages"
    = Some pages /\
    if n =? 0 then pages = Json.JNull
    else exists p, pages = Json.JNum (inject_Z p) /\
                   (p - 1) * n < Z.of_nat total <= p * n.
Proof.
  intros Hl Hn. unfold result. rewrite Hl.
  cbn [Json.getMember find fst snd String.eqb Ascii.eqb Bool.eqb fmap option_fmap
       option_map mbind option_bind].
  unfold Js.ofZ, Js.numDiv, Js.isZero. cbn [inject_Z Qnum].
  destruct (n =? 0) eqn:E.
  - destruct (Z.of_nat total =? 0); eexists; split; reflexivity.
  - eexists. split; [reflexivity |]. eexists. split; [reflexivity |].
    apply Z.eqb_neq in E. apply ceiling_quotient. lia.
Qed.

Lemma pages_cover_the_total_witness :
  exists pages,
    Json.getMember "pagination" (result plainQuery (catalogue 50) 120)
      ≫= Json.getMember "pages" = Some pages /\
    if 50 =? 0 then pages = Json.JNull
    else exists p, pages = Json.JNum (inject_Z p) /\
                   (p - 1) * 50 < Z.of_nat 120 <= p * 50.
Proof.
  apply (pages_cover_the_total plainQuery (catalogue 50) 120 50);
    [reflexivity | lia].
Defined.

Example pages_of_a_listing :
  map (fun '(q, total) =>
         Json.getMember "pagination" (result q [] total) ≫= Json.getMember "pages")
      [ (plainQuery, 120%nat); (plainQuery, 100%nat); (plainQuery, 0%nat);
        (limit101, 102%nat);
        (mkQuery None None None None None None None (Some "0") None, 7%nat) ]
  = [ Some (Json.JNum 3); Some (Json.JNum 2); Some (Json.JNum 0);
      Some (Json.JNum 2); Some Json.JNull ].
Proof. vm_compute. reflexivity. Qed.

End PaginationFacts.

(** ** The universities with the most courses *)

Module UniversityFacts.

Import Model Stats Views Samples.

#[local] Abbreviation code := (stringAt "universityCode").
#[local] Abbreviation name := (stringAt "universityName").
#[local] Abbreviation groups c g :=
  (fold_left (fun groups d => bumpNamed (code d) (name d) groups) c g).
#[local] Abbreviation counted := (fun g : option string * option string * nat => (fst (fst g), snd g)).
#[local] Abbreviation codes g := (map (fun x : option string * option string * nat => fst (fst x)) g).

Lemma counted_bumpNamed (k nm : option string)
  (g : list (option string * option string * nat)) :
  map counted (bumpNamed k nm g) = bump k (map counted g).
Proof.
  induction g as [|[[k0 nm0] n] r IH]; cbn [bumpNamed bump map fst snd];
    [reflexivity |].
  destruct (decide (k0 = k)); cbn [map fst snd]; [reflexivity | now rewrite IH].
Qed.

Lemma counted_groups (c : Collection)
  (g : list (option string * option string * nat)) :
  map counted (groups c g)
  = fold_left (fun groups d => bump (code d) groups) c (map counted g).
Proof.
  revert g. induction c as [|d c IH]; intros g; cbn [fold_left]; [reflexivity |].
  now rewrite IH, counted_bumpNamed.
Qed.

Lemma bumpNamed_elem (k nm kd nd : option string) (n : nat)
  (g : list (option string * option string * nat)) :
  (k, nm, n) ∈ bumpNamed kd nd g ->
  (exists n0, (k, nm, n0) ∈ g) \/ (k = kd /\ nm = nd /\ (kd ∉ codes g)).
Proof.
  induction g as [|[[k0 nm0] n0] r IH]; cbn [bumpNamed map fst].
  - intros H. apply list_elem_of_singleton in H. injection H as -> -> ->.
    right. split; [reflexivity |]. split; [reflexivity |]. apply not_elem_of_nil.
  - destruct (decide (k0 = kd)) as [->|Hne]; intros H;
      apply elem_of_cons in H as [H|H].
    + injection H as -> -> ->. left. eexists. apply list_elem_of_here.
    + left. exists n. now apply list_elem_of_further.
    + injection H as -> -> ->. left. eexists. apply list_elem_of_here.
    + destruct (IH H) as [(n1 & H1)|(-> & -> & Hk)].
      * left. exists n1. now apply list_elem_of_further.
      * right. split; [reflexivity |]. split; [reflexivity |].
        rewrite not_elem_of_cons. split; [congruence | exact Hk].
Qed.

Lemma codes_bumpNamed (k kd nd : option string)
  (g : list (option string * option string * nat)) :
  k ∈ codes (bumpNamed kd nd g) <-> k = kd \/ k ∈ codes g.
Proof.
  induction g as [|[[k0 nm0] n0] r IH]; cbn [bumpNamed map fst].
  - rewrite list_elem_of_singleton, elem_of_nil. tauto.
  - destruct (decide (k0 = kd)) as [->|Hne]; cbn [map fst];
      rewrite !elem_of_cons; [tauto |]. rewrite IH. tauto.
Qed.

(** A group carries the name of the first course of its university. *)
Lemma groups_name (c : Collection) (k nm : option string) (n : nat)
  (g : list (option string * option string * nat)) :
  (k, nm, n) ∈ groups c g ->
  (exists n0, (k, nm, n0) ∈ g) \/
  ((k ∉ codes g) /\
   exists d, List.find (fun d => bool_decide (code d = k)) c = Some d /\ nm = name d).
Proof.
  revert g. induction c as [|d c IH]; intros g; cbn [fold_left List.find].
  - intros H. left. now exists n.
  - intros H. destruct (IH _ H) as [(n1 & H1)|(Hk & d' & Hf & ->)].
    + destruct (bumpNamed_elem _ _ _ _ _ _ H1) as [Hg|(-> & -> & Hk)];
        [now left |].
      right. split; [exact Hk |]. exists d.
      now rewrite bool_decide_eq_true_2.
    + rewrite codes_bumpNamed in Hk.
      right. split; [tauto |]. exists d'.
      rewrite bool_decide_eq_false_2 by (intros E; apply Hk; left; now symmetry).
      now split.
Qed.

Lemma groupCount_elem (k : option string) (n : nat)
  (g : list (option string * nat)) :
  NoDup (map fst g) -> (k, n) ∈ g -> groupCount k g = n.
Proof.
  induction g as [|[k0 n0] r IH]; intros Hnd H; [now apply elem_of_nil in H |].
  cbn [map fst] in Hnd. apply NoDup_cons in Hnd as [Hk0 Hnd].
  rewrite StatsFacts.groupCount_cons.
  apply elem_of_cons in H as [H|H].
  - injection H as -> ->. now rewrite decide_True.
  - rewrite decide_False; [now apply IH |].
    intros ->. apply Hk0. apply list_elem_of_fmap. now exists (k, n).
Qed.

Lemma most_first_total (a b : option string * option string * nat) :
  (snd b <=? snd a)%nat = false -> (snd a <=? snd b)%nat = true.
Proof. intros H. apply Nat.leb_gt in H. apply Nat.leb_le. lia. Qed.

(** X20. The universities with the most courses: the list has at most 10
    groups, no university twice, the larger counts first; the count of a
    group is the number of courses of its university, its name is that of
    the first of them in the collection; and a university that is left
    out has no more courses than any that is listed. *)
Theorem top_universities_exact (c : Collection) :
  let top := topUniversities c in
  (length top <= 10)%nat /\
  NoDup (map (fun g => fst (fst g)) top) /\
  Sorted (fun a b => (snd b <= snd a)%nat) top /\
  (forall k nm n, (k, nm, n) ∈ top ->
     n = length (filter (fun d => stringAt "universityCode" d = k) c) /\
     exists d, List.find (fun d => bool_decide (stringAt "universityCode" d = k)) c
               = Some d /\
               nm = stringAt "universityName" d) /\
  (forall d, d ∈ c ->
     stringAt "universityCode" d ∈ map (fun g => fst (fst g)) top \/
     forall g, g ∈ top ->
       (length (filter (fun e => stringAt "universityCode" e
                                 = stringAt "universityCode" d) c) <= snd g)%nat).
Proof.
  cbv zeta. unfold topUniversities.
  set (G := groups c []).
  set (S := Js.sortBy (fun a b => (snd b <=? snd a)%nat) G).
  assert (Permutation S G) as HP by apply sortBy_perm.
  assert (map counted G = countBy code c) as EG by apply (counted_groups c []).
  destruct (StatsFacts.countBy_fold code c [] (NoDup_nil_2) (Forall_nil_2 _))
    as (Hnd & _ & Hcnt & Hkeys).
  fold (countBy code c) in Hnd, Hcnt, Hkeys.
  assert (codes G = map fst (countBy code c)) as EK.
  { rewrite <- EG, map_map. reflexivity. }
  assert (forall k nm n, (k, nm, n) ∈ G ->
            n = length (filter (fun d => code d = k) c)) as Hn.
  { intros k nm n H. transitivity (groupCount k (countBy code c)).
    - symmetry. apply groupCount_elem; [exact Hnd |].
      rewrite <- EG. apply list_elem_of_fmap. now exists (k, nm, n).
    - now rewrite (Hcnt k). }
  assert (Sorted (fun a b : option string * option string * nat =>
                    (snd b <= snd a)%nat) S) as HS.
  { eapply Sorted_weaken; [| apply sortBy_sorted, most_first_total].
    intros a b H. now apply Nat.leb_le in H. }
  split; [rewrite length_take; lia |].
  split.
  { eapply sublist_NoDup;
      [| apply (fmap_sublist (fun g : option string * option string * nat =>
                                fst (fst g))), sublist_take].
    rewrite HP. change (NoDup (codes G)). rewrite EK. exact Hnd. }
  split; [now apply Sorted_take |].
  split.
  - intros k nm n H.
    assert ((k, nm, n) ∈ G) as HG.
    { rewrite <- HP. eapply subseteq_take, H. }
    split; [now apply (Hn k nm n) |].
    destruct (groups_name c k nm n [] HG) as [(n0 & H0)|(_ & Hd)];
      [now apply elem_of_nil in H0 | exact Hd].
  - intros d Hd.
    assert (code d ∈ codes S) as Hin.
    { rewrite HP, EK. apply Hkeys. right. now exists d. }
    apply list_elem_of_fmap in Hin as ([[k nm] n] & Ek & Hg). cbn [fst] in Ek.
    rewrite <- (take_drop 10 S) in Hg.
    apply elem_of_app in Hg as [Hg|Hg].
    + left. apply list_elem_of_fmap. now exists (k, nm, n).
    + right. intros g Hgt.
      assert (StronglySorted (fun a b : option string * option string * nat =>
                                (snd b <= snd a)%nat) (take 10 S ++ drop 10 S)) as HSS.
      { rewrite take_drop. apply Sorted_StronglySorted; [| exact HS].
        intros x y z Hxy Hyz. lia. }
      pose proof (stdpp.sorting.StronglySorted_app_1_elem_of _ _ _ g (k, nm, n)
                    HSS Hgt Hg) as Hle.
      cbn [snd] in Hle. rewrite Ek.
      rewrite <- (Hn k nm n); [exact Hle |].
      rewrite <- HP, <- (take_drop 10 S). apply elem_of_app. now right.
Qed.

Example top_universities_of_a_batch :
  topUniversities
    (map (fun '(u, nm) =>
            Upload.object [ ("universityCode", Some (VStr u));
                            ("universityName", Some (VStr nm)) ])
         [ ("U1", "First"); ("U2", "Second"); ("U2", "Second (old name)");
           ("U3", "Third"); ("U2", "Second") ])
  = [ (Some "U2", Some "Second", 3%nat); (Some "U1", Some "First", 1%nat);
      (Some "U3", Some "Third", 1%nat) ].
Proof. vm_compute. reflexivity. Qed.

End UniversityFacts.

(** ** The cache key of a listing *)

Module KeyFacts.

Import Listing Decode.

Lemma append_assoc (a b c : string) : (a +:+ b) +:+ c = a +:+ (b +:+ c).
Proof.
  induction a as [|x a IH]; [reflexivity | exact (f_equal (String x) IH)].
Qed.

Lemma append_cons (x : ascii) (a b : string) : String x a +:+ b = String x (a +:+ b).
Proof. reflexivity. Qed.

Lemma append_nil (b : string) : "" +:+ b = b.
Proof. reflexivity. Qed.

Lemma append_cancel (a X Y : string) : a +:+ X = a +:+ Y -> X = Y.
Proof.
  induction a as [|x a IH]; [trivial |].
  rewrite !append_cons. intros H. injection H as H. now apply IH.
Qed.

Ltac heads :=
  repeat (rewrite append_assoc || rewrite append_cons || rewrite append_nil).
Ltac heads_in H :=
  repeat (rewrite append_assoc in H || rewrite append_cons in H
          || rewrite append_nil in H).

Lemma unescape_escape (c : ascii) (X : string) :
  unescapeChar (escapeChar c +:+ X) = Some (c, X).
Proof. destruct c as [[] [] [] [] [] [] [] []]; reflexivity. Qed.

Lemma escape_inj (s s' r r' : string) :
  escape s +:+ String (ascii_of_nat 34) r = escape s' +:+ String (ascii_of_nat 34) r' ->
  s = s' /\ r = r'.
Proof.
  revert s'. induction s as [|c s IH]; intros [|c' s']; cbn [escape]; intros H.
  - heads_in H. injection H as ->. now split.
  - apply (f_equal unescapeChar) in H.
    rewrite append_assoc, unescape_escape in H. discriminate H.
  - apply (f_equal unescapeChar) in H.
    rewrite append_assoc, unescape_escape in H. discriminate H.
  - rewrite !append_assoc in H. apply (f_equal unescapeChar) in H.
    rewrite !unescape_escape in H. injection H as -> H.
    apply IH in H as [-> ->]. now split.
Qed.

Lemma quote_inj (s s' r r' : string) :
  quote s +:+ r = quote s' +:+ r' -> s = s' /\ r = r'.
Proof.
  unfold quote. heads. intros H. injection H as H. now apply escape_inj.
Qed.

Lemma member_inj (k s s' r r' : string) :
  member k (quote s) +:+ r = member k (quote s') +:+ r' -> s = s' /\ r = r'.
Proof.
  unfold member. rewrite !append_assoc. intros H.
  apply quote_inj in H as [_ H]. apply append_cancel in H.
  now apply quote_inj in H.
Qed.

Lemma optional_inj (k : string) (v v' : option string) (R R' : string) :
  String.prefix (quote k +:+ ":") R = false ->
  String.prefix (quote k +:+ ":") R' = false ->
  optional k v R = optional k v' R' -> v = v' /\ R = R'.
Proof.
  intros HR HR'.
  assert (forall s X, member k (quote s) +:+ "," +:+ X
                      = (quote k +:+ ":") +:+ (quote s +:+ "," +:+ X)) as E.
  { intros s X. unfold member. now rewrite !append_assoc. }
  destruct v as [s|], v' as [s'|]; unfold optional; intros H.
  - apply member_inj in H as [-> H]. apply append_cancel in H.
    now split.
  - rewrite <- H, E, RedisFacts.prefix_append in HR'. discriminate HR'.
  - rewrite H, E, RedisFacts.prefix_append in HR. discriminate HR.
  - now split.
Qed.

Lemma ending_inj (l l' p p' : option string) :
  ending l p = ending l' p' -> l = l' /\ p = p'.
Proof.
  unfold ending.
  assert (forall (k : string) (a b X Y : string),
            member k a +:+ X = member k b +:+ Y -> a +:+ X = b +:+ Y) as strip.
  { intros k a b X Y H. unfold member in H. rewrite !append_assoc in H.
    apply quote_inj in H as [_ H]. now apply append_cancel in H. }
  intros H. apply strip in H.
  assert (l = l' /\
          member "page" (match p with Some s => quote s | None => "1" end) +:+ "}"
          = member "page" (match p' with Some s => quote s | None => "1" end) +:+ "}")
    as [-> H1].
  { destruct l as [s|], l' as [s'|].
    - apply quote_inj in H as [-> H]. apply append_cancel in H. now split.
    - unfold quote in H. heads_in H. discriminate H.
    - unfold quote in H. heads_in H. discriminate H.
    - apply append_cancel in H. apply append_cancel in H. now split. }
  split; [reflexivity |]. apply strip in H1.
  destruct p as [s|], p' as [s'|].
  - now apply quote_inj in H1 as [-> _].
  - unfold quote in H1. heads_in H1. discriminate H1.
  - unfold quote in H1. heads_in H1. discriminate H1.
  - reflexivity.
Qed.

Lemma cacheKey_members (q : Query) :
  cacheKey q
  = "{" +:+
    optional "query" (query q)
      (optional "universityCode" (universityCode q)
         (optional "courseLevel" (courseLevel q)
            (optional "disciplineMajor" (disciplineMajor q)
               (optional "attendanceType" (attendanceType q)
                  (optional "minTuition" (minTuition q)
                     (optional "maxTuition" (maxTuition q)
                        (ending (limit q) (page q)))))))).
Proof.
  destruct q as [o1 o2 o3 o4 o5 o6 o7 l p]. unfold cacheKey, ending.
  cbn [query universityCode courseLevel disciplineMajor attendanceType
       minTuition maxTuition limit page].
  f_equal.
  destruct o1, o2, o3, o4, o5, o6, o7;
    cbn [omap list_omap id fmap option_fmap option_map Js.join optional];
    rewrite ?append_assoc; reflexivity.
Qed.

Ltac later_key :=
  repeat match goal with
         | |- context [optional _ ?o _] => is_var o; destruct o
         end;
  reflexivity.

(** X21. Requests with different parameters never share a cache entry:
    the key of a listing determines every parameter of the request, the
    absent ones included. *)
Theorem cacheKey_injective (q q' : Query) : cacheKey q = cacheKey q' -> q = q'.
Proof.
  rewrite !cacheKey_members.
  destruct q as [o1 o2 o3 o4 o5 o6 o7 l p], q' as [o1' o2' o3' o4' o5' o6' o7' l' p'].
  cbn [query universityCode courseLevel disciplineMajor attendanceType
       minTuition maxTuition limit page].
  intros H. apply append_cancel in H.
  apply optional_inj in H as [-> H]; [| later_key | later_key].
  apply optional_inj in H as [-> H]; [| later_key | later_key].
  apply optional_inj in H as [-> H]; [| later_key | later_key].
  apply optional_inj in H as [-> H]; [| later_key | later_key].
  apply optional_inj in H as [-> H]; [| later_key | later_key].
  apply optional_inj in H as [-> H]; [| later_key | later_key].
  apply optional_inj in H as [-> H]; [| later_key | later_key].
  now apply ending_inj in H as [-> ->].
Qed.

Lemma cacheKey_injective_witness :
  Samples.plainQuery = Samples.plainQuery.
Proof. apply (cacheKey_injective Samples.plainQuery Samples.plainQuery). reflexivity. Defined.

Example keys_of_two_requests :
  cacheKey Samples.plainQuery = "{" +:+ quote "limit" +:+ ":50," +:+ quote "page" +:+ ":1}" /\
  cacheKey (mkQuery None None None None None None None (Some "50") None)
  = "{" +:+ quote "limit" +:+ ":" +:+ quote "50" +:+ "," +:+ quote "page" +:+ ":1}".
Proof. split; vm_compute; reflexivity. Qed.

End KeyFacts.
